(** * namesurfer: the subdomain-to-DNS-record lifecycle

    A shallow embedding of the server side of the platform:
    - [lib/validation.js]      (module [Validation]),
    - [lib/rate-limit.js]      (module [RateLimit]),
    - [lib/powerdns-client.js] (module [PowerDNS]),
    - [pages/api/subdomains/index.js] ([handlePost]), [[id].js]
      ([handleGet], [handlePatch], [handleDelete]) and [check.js]
      (modules [SubdomainsIndex], [SubdomainsId], [SubdomainsCheck]).

    What the embedding takes as given:
    - JavaScript strings are sequences of code units; the embedding uses
      Rocq's [string], one [ascii] per code unit, so it covers the strings
      whose code units are below 256;
    - the [validator] package is a parameter (class [Validator]);
    - the Firestore collection is a finite map that never fails; a new
      document gets an identifier that is not in use;
    - the handlers start where the authentication middleware has put the
      verified user on the request, and the request body is an object;
    - every reading of the clock within one request gives the same
      instant, and a handler is told what the DNS Directory will reply to
      the one request it may send;
    - console logging is left out; the I/O a handler performs is kept on
      a trace. *)

From Stdlib Require Import ZArith NArith Ascii String List Bool Lia.
From stdpp Require Import base option gmap strings list fin_maps pretty.

Open Scope string_scope.

(** ** JavaScript values, strings and completions *)

Module Js.

(** The values a JSON body, a query string or a missing field can hold.
    [Object] stands for every object and array, and [Number] carries an
    integer: of what is not a string the code only looks at the
    truthiness and the [typeof]. *)
Inductive value : Type :=
| Undefined
| Null
| Boolean (b : bool)
| Number (n : Z)
| Str (s : string)
| Object.

Definition truthy (v : value) : bool :=
  match v with
  | Undefined | Null => false
  | Boolean b => b
  | Number n => negb (n =? 0)%Z
  | Str s => negb (String.eqb s "")
  | Object => true
  end.

Definition typeof (v : value) : string :=
  match v with
  | Undefined => "undefined"
  | Null => "object"
  | Boolean _ => "boolean"
  | Number _ => "number"
  | Str _ => "string"
  | Object => "object"
  end.

(** A thrown [Error]: the handlers only read [message]. *)
Record Error : Type := mkError { message : string }.

(** How an evaluation ends: normally, or by throwing. *)
Inductive completion (A : Type) : Type :=
| Normal (a : A)
| Throw (e : Error).
Arguments Normal {A} a.
Arguments Throw {A} e.

Definition TypeError (m : string) : Error := mkError ("TypeError: " +:+ m).

(** Code units. *)
Definition code (c : ascii) : N := N_of_ascii c.

Definition between (lo hi : N) (c : ascii) : bool :=
  ((lo <=? code c) && (code c <=? hi))%N.

(** ECMAScript WhiteSpace and LineTerminator below 256: TAB, LF, VT, FF,
    CR, SP and NBSP. *)
Definition isWhiteSpace (c : ascii) : bool :=
  between 9 13 c || (code c =? 32)%N || (code c =? 160)%N.

Fixpoint trimStart (s : string) : string :=
  match s with
  | String c r => if isWhiteSpace c then trimStart r else s
  | EmptyString => EmptyString
  end.

Fixpoint trimEnd (s : string) : string :=
  match s with
  | String c r =>
      match trimEnd r with
      | EmptyString => if isWhiteSpace c then EmptyString else String c EmptyString
      | r' => String c r'
      end
  | EmptyString => EmptyString
  end.

Definition trim (s : string) : string := trimEnd (trimStart s).

(** [toLowerCase] on code units below 256: A-Z and the Latin-1 capitals
    (all of 192..222 but the multiplication sign 215) move up by 32. *)
Definition lowerChar (c : ascii) : ascii :=
  if between 65 90 c || (between 192 222 c && negb (code c =? 215)%N)
  then ascii_of_N (code c + 32)
  else c.

Fixpoint toLowerCase (s : string) : string :=
  match s with
  | String c r => String (lowerChar c) (toLowerCase r)
  | EmptyString => EmptyString
  end.

Definition startsWith (s p : string) : bool := String.prefix p s.

Definition endsWith (s p : string) : bool :=
  String.prefix (String.rev p) (String.rev s).

Fixpoint every (p : ascii -> bool) (s : string) : bool :=
  match s with
  | String c r => p c && every p r
  | EmptyString => true
  end.

Fixpoint dropChars (n : nat) (s : string) : string :=
  match n, s with
  | S k, String _ r => dropChars k r
  | _, _ => s
  end.

(** [s.slice(0, -1)] on a non-empty string. *)
Fixpoint dropLast (s : string) : string :=
  match s with
  | String c EmptyString => EmptyString
  | String c r => String c (dropLast r)
  | EmptyString => EmptyString
  end.

(** [s.split(sep)] for a one-character separator. *)
Fixpoint split (sep : ascii) (s : string) : list string :=
  match s with
  | EmptyString => [EmptyString]
  | String c r =>
      if Ascii.eqb c sep then EmptyString :: split sep r
      else match split sep r with
           | hd :: tl => String c hd :: tl
           | [] => [String c EmptyString]
           end
  end.

(** The method call [v.trim()]: a property read on [undefined] or [null]
    throws, and so does calling a method that the receiver lacks. *)
Definition call_trim (v : value) : completion string :=
  match v with
  | Str s => Normal (trim s)
  | Undefined | Null =>
      Throw (TypeError "Cannot read properties of undefined (reading 'trim')")
  | _ => Throw (TypeError "trim is not a function")
  end.

(** [assertString] of the validator package: its predicates throw on
    anything that is not a string. *)
Definition assertString (v : value) : completion string :=
  match v with
  | Str s => Normal s
  | _ => Throw (TypeError "Expected a string")
  end.

(** [v === s] for a string literal [s]. *)
Definition strictEq (v : value) (s : string) : bool :=
  match v with Str x => String.eqb x s | _ => false end.

(** The string a value holds, once it is known to be one. *)
Definition toStr (v : value) : string :=
  match v with Str x => x | _ => EmptyString end.

Definition bind {A B} (m : completion A) (k : A -> completion B) : completion B :=
  match m with
  | Normal a => k a
  | Throw e => Throw e
  end.

End Js.

Notation "'let*' x ':=' m 'in' k" := (Js.bind m (fun x => k))
  (at level 10, x name, m at level 100, k at level 200).

(** ** lib/validation.js *)

(** The two predicates the code imports from the [validator] package. *)
Class Validator : Type := {
  isIP : string -> N -> bool;
  isFQDN : string -> bool
}.

Module Validation.

(** The object a validator returns: [{valid: false, error}] or
    [{valid: true, value}]. *)
Inductive result : Type :=
| Invalid (error : string)
| Valid (value : string).

Definition valid (r : result) : bool :=
  match r with Valid _ => true | Invalid _ => false end.

Definition value (r : result) : option string :=
  match r with Valid v => Some v | Invalid _ => None end.

Definition error (r : result) : option string :=
  match r with Invalid e => Some e | Valid _ => None end.

(** The class [[a-z0-9-]]. *)
Definition labelChar (c : ascii) : bool :=
  Js.between 97 122 c || Js.between 48 57 c || (Js.code c =? 45)%N.

(** [/^[a-z0-9-]+$/.test(s)] *)
Definition re_label (s : string) : bool :=
  negb (String.eqb s "") && Js.every labelChar s.

Definition reserved : list string :=
  ["www"; "mail"; "ftp"; "admin"; "root"; "api"; "ns1"; "ns2"].

Definition includes (l : list string) (s : string) : bool :=
  existsb (String.eqb s) l.

Definition validateSubdomainName (subdomain : Js.value) : Js.completion result :=
  if negb (Js.truthy subdomain) || negb (String.eqb (Js.typeof subdomain) "string")
  then Js.Normal (Invalid "Subdomain name is required")
  else
    let* t := Js.call_trim subdomain in
    let trimmed := Js.toLowerCase t in
    if (String.length trimmed <? 3)%nat || (63 <? String.length trimmed)%nat
    then Js.Normal (Invalid "Subdomain must be between 3 and 63 characters")
    else if negb (re_label trimmed)
    then Js.Normal (Invalid "Subdomain can only contain lowercase letters, numbers, and hyphens")
    else if Js.startsWith trimmed "-" || Js.endsWith trimmed "-"
    then Js.Normal (Invalid "Subdomain cannot start or end with a hyphen")
    else if includes reserved trimmed
    then Js.Normal (Invalid "This subdomain name is reserved")
    else Js.Normal (Valid trimmed).

(** [s.replace(/^https?:\/\//, '')] *)
Definition stripScheme (s : string) : string :=
  if Js.startsWith s "https://" then Js.dropChars 8 s
  else if Js.startsWith s "http://" then Js.dropChars 7 s
  else s.

(** [s.replace(/\/$/, '')] *)
Definition stripSlash (s : string) : string :=
  if Js.endsWith s "/" then Js.dropLast s else s.

Section WithValidator.
Context `{Validator}.

Definition validateIP (ip : Js.value) : Js.completion result :=
  if negb (Js.truthy ip) || negb (String.eqb (Js.typeof ip) "string")
  then Js.Normal (Invalid "IP address is required")
  else
    let* s := Js.assertString ip in
    if negb (isIP s 4)
    then Js.Normal (Invalid "Invalid IPv4 address")
    else
      let* t := Js.call_trim ip in
      Js.Normal (Valid t).

Definition validateURL (url : Js.value) : Js.completion result :=
  if negb (Js.truthy url) || negb (String.eqb (Js.typeof url) "string")
  then Js.Normal (Invalid "URL/domain is required")
  else
    let* trimmed := Js.call_trim url in
    if negb (isFQDN (stripSlash (stripScheme trimmed)))
    then Js.Normal (Invalid "Invalid domain or URL")
    else Js.Normal (Valid trimmed).

End WithValidator.

End Validation.

(** A reference instance of the two [validator] predicates with the
    package's default options, on code units below 256.  It is used to
    evaluate the handlers on concrete requests; the theorems below hold
    for every instance. *)
Module ValidatorJs.

Definition digit (c : ascii) : bool := Js.between 48 57 c.

Definition alpha (c : ascii) : bool := Js.between 97 122 c || Js.between 65 90 c.

Fixpoint decimal (acc : N) (s : string) : N :=
  match s with
  | String c r => decimal (acc * 10 + (Js.code c - 48)) r
  | EmptyString => acc
  end.

(** [(?:[0-9]|[1-9][0-9]|1[0-9][0-9]|2[0-4][0-9]|25[0-5])] *)
Definition ipv4Segment (s : string) : bool :=
  negb (String.eqb s "") && Js.every digit s && (String.length s <=? 3)%nat
  && (negb (Js.startsWith s "0") || String.eqb s "0")
  && (decimal 0 s <=? 255)%N.

Definition isIP (s : string) (version : N) : bool :=
  (version =? 4)%N &&
  match Js.split "." s with
  | [a; b; c; d] => ipv4Segment a && ipv4Segment b && ipv4Segment c && ipv4Segment d
  | _ => false
  end.

(** [[a-z¡-¨ª-퟿...]] with the [i] flag *)
Definition tldChar (c : ascii) : bool :=
  alpha c || Js.between 161 168 c || Js.between 170 255 c.

Definition xnChar (c : ascii) : bool := alpha c || digit c || (Js.code c =? 45)%N.

Definition tldOk (tld : string) : bool :=
  ((2 <=? String.length tld)%nat && Js.every tldChar tld)
  || (String.eqb (Js.toLowerCase (String.substring 0 2 tld)) "xn"
      && (4 <=? String.length tld)%nat && Js.every xnChar (Js.dropChars 2 tld)).

(** [[a-z_¡-￿0-9-]] with the [i] flag *)
Definition partChar (c : ascii) : bool :=
  alpha c || digit c || (Js.code c =? 95)%N || (Js.code c =? 45)%N || Js.between 161 255 c.

Definition partOk (part : string) : bool :=
  (String.length part <=? 63)%nat
  && negb (String.eqb part "") && Js.every partChar part
  && negb (Js.startsWith part "-" || Js.endsWith part "-")
  && Js.every (fun c => negb (Js.code c =? 95)%N) part.

Definition isFQDN (s : string) : bool :=
  let parts := Js.split "." s in
  let tld := List.last parts "" in
  (2 <=? List.length parts)%nat
  && tldOk tld
  && negb (existsb Js.isWhiteSpace (list_ascii_of_string tld))
  && negb (negb (String.eqb tld "") && Js.every digit tld)
  && forallb partOk parts.

End ValidatorJs.

Definition validator_js : Validator :=
  {| isIP := ValidatorJs.isIP; isFQDN := ValidatorJs.isFQDN |}.

(** ** The persisted store: the Firestore collection [subdomains] *)

Module Firestore.

Inductive Status : Type := pending | approved | rejected.

(** A document of the collection, with the fields the handlers write.
    Timestamps are milliseconds; [approvedAt] and [updatedAt] may be
    missing from a document. *)
Record Doc : Type := mkDoc {
  subdomainName : string;
  userEmail : string;
  userId : string;
  targetUrl : string;
  recordType : string;
  status : Status;
  dnsCreated : bool;
  dnsError : option string;
  createdAt : Z;
  approvedAt : option Z;
  updatedAt : option Z
}.

(** The fields [docRef.update] receives in [handlePatch]. *)
Record Patch : Type := mkPatch {
  p_targetUrl : string;
  p_dnsCreated : bool;
  p_dnsError : option string;
  p_updatedAt : Z
}.

(** Merging the patch into a document: the named fields are replaced,
    every other field is kept. *)
Definition merge (p : Patch) (d : Doc) : Doc :=
  {| subdomainName := subdomainName d;
     userEmail := userEmail d;
     userId := userId d;
     targetUrl := p_targetUrl p;
     recordType := recordType d;
     status := status d;
     dnsCreated := p_dnsCreated p;
     dnsError := p_dnsError p;
     createdAt := createdAt d;
     approvedAt := approvedAt d;
     updatedAt := Some (p_updatedAt p) |}.

(** [.where('subdomainName', '==', v).limit(1).get()]: the snapshot. *)
Definition whereName (v : string) (c : gmap string Doc) : list (string * Doc) :=
  take 1 (map_to_list (filter (fun kd => subdomainName kd.2 = v) c)).

Definition empty (snapshot : list (string * Doc)) : bool :=
  match snapshot with [] => true | _ => false end.

(** The identifier [add] gives to a new document: one not in use. *)
Definition autoId (c : gmap string Doc) : string := fresh (dom c).

End Firestore.

(** ** The DNS Directory: wire format and authoritative state *)

Module Pdns.

Inductive Changetype : Type := REPLACE | DELETE.

Record Record_ : Type := mkRecord { content : string; disabled : bool }.

(** One entry of [rrsets] in the body of a PATCH; a DELETE carries
    neither [ttl] nor [records]. *)
Record RRset : Type := mkRRset {
  name : string;
  type : string;
  ttl : option N;
  changetype : Changetype;
  records : list Record_
}.

Record Request : Type := mkRequest {
  url : string;
  method : string;
  headers : list (string * string);
  rrsets : list RRset
}.

(** What [fetch] comes back with: a response (status and body text), or
    a rejection when the server cannot be reached. *)
Inductive Reply : Type :=
| Response (status : N) (text : string)
| Unreachable (e : Js.Error).

(** [response.ok] *)
Definition ok (status : N) : bool := ((200 <=? status) && (status <=? 299))%N.

Definition accepted (r : Reply) : bool :=
  match r with Response st _ => ok st | Unreachable _ => false end.

(** The directory's state: for a name and a type, the ttl and the
    records of the resource record set. *)
Definition Zone : Type := gmap (string * string) (option N * list Record_).

(** Modelled from the spec: the authoritative server is not part of the
    repository.  Following section 4.3 and section 6 of the
    specification, a REPLACE entry puts its record set in the place of
    whatever the name and type held, and a DELETE entry removes the record
    set, which is tolerated when there is none. *)
Definition applyRRset (z : Zone) (c : RRset) : Zone :=
  match changetype c with
  | REPLACE => <[(name c, type c) := (ttl c, records c)]> z
  | DELETE => delete (name c, type c) z
  end.

(** Modelled from the spec: a request answered with a 2xx status has been
    applied, any other outcome leaves the directory as it was. *)
Definition serve (rq : Request) (r : Reply) (z : Zone) : Zone :=
  if accepted r then foldl applyRRset z (rrsets rq) else z.

End Pdns.

(** ** The world the handlers run in *)

(** An entry of the [rateLimit] map of lib/rate-limit.js. *)
Record RateEntry : Type := mkRateEntry { count : N; resetTime : Z }.

(** What a handler did to the outside, oldest first. *)
Inductive Event : Type :=
| StoreGet (id : string)
| StoreQuery (subdomainName : string)
| StoreAdd (id : string)
| StoreUpdate (id : string)
| StoreDelete (id : string)
| DnsPatch (rq : Pdns.Request).

Record World : Type := mkWorld {
  subdomains : gmap string Firestore.Doc;
  rateLimit : gmap string RateEntry;
  zone : Pdns.Zone;
  trace : list Event
}.

(** The world after a request has gone out to the directory and has been
    answered. *)
Definition afterPatch (rq : Pdns.Request) (reply : Pdns.Reply) (w : World) : World :=
  {| subdomains := subdomains w; rateLimit := rateLimit w;
     zone := Pdns.serve rq reply (zone w); trace := trace w ++ [DnsPatch rq] |}.

(** Computations over the world that may throw. *)
Definition M (A : Type) : Type := World -> Js.completion A * World.

Definition ret {A} (a : A) : M A := fun w => (Js.Normal a, w).

Definition throw {A} (e : Js.Error) : M A := fun w => (Js.Throw e, w).

Definition bindM {A B} (m : M A) (k : A -> M B) : M B :=
  fun w => match m w with
           | (Js.Normal a, w') => k a w'
           | (Js.Throw e, w') => (Js.Throw e, w')
           end.

(** [try { m } catch (error) { h error }] *)
Definition tryCatch {A} (m : M A) (h : Js.Error -> M A) : M A :=
  fun w => match m w with
           | (Js.Normal a, w') => (Js.Normal a, w')
           | (Js.Throw e, w') => h e w'
           end.

(** A pure evaluation that may throw, run inside a handler. *)
Definition lift {A} (c : Js.completion A) : M A := fun w => (c, w).

Notation "x <- m ;; k" := (bindM m (fun x => k))
  (at level 62, m at next level, right associativity).
Notation "m ;;; k" := (bindM m (fun _ => k))
  (at level 62, right associativity).

Definition emit (e : Event) : M unit :=
  fun w => (Js.Normal tt,
            {| subdomains := subdomains w; rateLimit := rateLimit w;
               zone := zone w; trace := trace w ++ [e] |}).

Definition setSubdomains (c : gmap string Firestore.Doc) : M unit :=
  fun w => (Js.Normal tt,
            {| subdomains := c; rateLimit := rateLimit w;
               zone := zone w; trace := trace w |}).

Definition setRateLimit (r : gmap string RateEntry) : M unit :=
  fun w => (Js.Normal tt,
            {| subdomains := subdomains w; rateLimit := r;
               zone := zone w; trace := trace w |}).

Definition setZone (z : Pdns.Zone) : M unit :=
  fun w => (Js.Normal tt,
            {| subdomains := subdomains w; rateLimit := rateLimit w;
               zone := z; trace := trace w |}).

Definition gets {A} (f : World -> A) : M A := fun w => (Js.Normal (f w), w).

(** *** Store operations of the Admin SDK *)

Module Db.

(** [collection.doc(id).get()] *)
Definition get (id : string) : M (option Firestore.Doc) :=
  emit (StoreGet id) ;;;
  gets (fun w => subdomains w !! id).

(** [collection.where('subdomainName', '==', v).limit(1).get()] *)
Definition queryName (v : string) : M (list (string * Firestore.Doc)) :=
  emit (StoreQuery v) ;;;
  gets (fun w => Firestore.whereName v (subdomains w)).

(** [collection.add(data)] *)
Definition add (d : Firestore.Doc) : M string :=
  c <- gets subdomains ;;
  let id := Firestore.autoId c in
  emit (StoreAdd id) ;;;
  setSubdomains (<[id := d]> c) ;;;
  ret id.

(** [docRef.update(data)]: rejects when the document does not exist. *)
Definition update (id : string) (p : Firestore.Patch) : M unit :=
  c <- gets subdomains ;;
  emit (StoreUpdate id) ;;;
  match c !! id with
  | Some d => setSubdomains (<[id := Firestore.merge p d]> c)
  | None => throw (Js.mkError "5 NOT_FOUND: No document to update")
  end.

(** [docRef.delete()] *)
Definition delete (id : string) : M unit :=
  c <- gets subdomains ;;
  emit (StoreDelete id) ;;;
  setSubdomains (base.delete id c).

End Db.

(** ** HTTP requests and responses *)

(** The verified identity the authentication middleware puts on the
    request before it runs the handler. *)
Record User : Type := mkUser { uid : string; email : string; isAdmin : bool }.

(** Where the request comes from: the two proxy headers and the address of
    the connection, each possibly missing. *)
Record Origin : Type := mkOrigin {
  x_forwarded_for : option string;
  x_real_ip : option string;
  remoteAddress : option string
}.

(** The JSON a handler answers with. *)
Inductive Json : Type :=
| ErrorJson (error : string)
| RecordJson (id : string) (d : Firestore.Doc)
| DeletedJson
| AvailabilityJson (available : bool) (reason : option string).

Record Response : Type := mkResponse { code : N; json : Json }.

(** [res.status(c).json(j)] *)
Definition respond (c : N) (j : Json) : M Response := ret (mkResponse c j).

(** ** lib/rate-limit.js *)

Module RateLimit.

(** [a || b] for a possibly missing string [a]. *)
Definition orElse (a : option string) (b : string) : string :=
  match a with
  | Some s => if String.eqb s "" then b else s
  | None => b
  end.

Definition getClientIP (o : Origin) : string :=
  let forwarded :=
    match x_forwarded_for o with
    | Some h => hd_error (Js.split "," h)
    | None => None
    end in
  orElse forwarded (orElse (x_real_ip o) (orElse (remoteAddress o) "unknown")).

Definition checkRateLimit (identifier : string) (maxRequests : N) (windowMs : Z)
    (now : Z) : M bool :=
  let key := identifier in
  rl <- gets rateLimit ;;
  match rl !! key with
  | None =>
      setRateLimit (<[key := mkRateEntry 1 (now + windowMs)]> rl) ;;;
      ret true
  | Some record =>
      if (resetTime record <? now)%Z
      then
        setRateLimit (<[key := mkRateEntry 1 (now + windowMs)]> rl) ;;;
        ret true
      else if (count record <? maxRequests)%N
      then
        setRateLimit (<[key := mkRateEntry (count record + 1) (resetTime record)]> rl) ;;;
        ret true
      else ret false
  end.

(** One turn of the loop of [cleanupRateLimit]. *)
Definition cleanupEntry (now : Z) (rl : gmap string RateEntry) (e : string * RateEntry)
    : gmap string RateEntry :=
  if (resetTime e.2 <? now)%Z then delete e.1 rl else rl.

(** [cleanupRateLimit]: the loop goes over the entries the map has when it
    starts, and deletes from the map the keys of the expired ones. *)
Definition cleanupRateLimit (now : Z) : M unit :=
  rl <- gets rateLimit ;;
  setRateLimit (foldl (cleanupEntry now) rl (map_to_list rl)).

End RateLimit.

(** ** lib/powerdns-client.js *)

(** The three environment variables of the client. *)
Class PowerDNSEnv : Type := {
  POWERDNS_API_URL : string;
  POWERDNS_API_KEY : string;
  POWERDNS_ZONE : string
}.

Module PowerDNS.

Section Client.
Context `{PowerDNSEnv}.

Definition zoneUrl : string :=
  POWERDNS_API_URL +:+ "/api/v1/servers/localhost/zones/" +:+ POWERDNS_ZONE.

Definition patch (rrsets : list Pdns.RRset) : Pdns.Request :=
  {| Pdns.url := zoneUrl;
     Pdns.method := "PATCH";
     Pdns.headers := [("X-API-Key", POWERDNS_API_KEY);
                      ("Content-Type", "application/json")];
     Pdns.rrsets := rrsets |}.

(** [fetch]: the request goes out, the directory serves it, and the
    reply comes back or the promise rejects. *)
Definition fetch (rq : Pdns.Request) (reply : Pdns.Reply) : M (N * string) :=
  emit (DnsPatch rq) ;;;
  z <- gets zone ;;
  setZone (Pdns.serve rq reply z) ;;;
  match reply with
  | Pdns.Response st text => ret (st, text)
  | Pdns.Unreachable e => throw e
  end.

Definition apiError (st : N) (errorText : string) : Js.Error :=
  Js.mkError ("PowerDNS API error (" +:+ pretty st +:+ "): " +:+ errorText).

(** The part the three operations share: send, and throw on a status
    that is not 2xx; the [catch] logs and throws the error again. *)
Definition send (rq : Pdns.Request) (reply : Pdns.Reply) : M bool :=
  tryCatch
    (response <- fetch rq reply ;;
     if negb (Pdns.ok response.1)
     then throw (apiError response.1 response.2)
     else ret true)
    (fun error => throw error).

(** The request [createARecord] sends. *)
Definition replaceA (subdomain targetIP : string) : Pdns.Request :=
  let fqdn := subdomain +:+ "." +:+ POWERDNS_ZONE in
  patch [ {| Pdns.name := fqdn;
             Pdns.type := "A";
             Pdns.ttl := Some 3600%N;
             Pdns.changetype := Pdns.REPLACE;
             Pdns.records := [Pdns.mkRecord targetIP false] |} ].

Definition createARecord (subdomain targetIP : string) (reply : Pdns.Reply) : M bool :=
  send (replaceA subdomain targetIP) reply.

(** The request [createCNAMERecord] sends. *)
Definition replaceCNAME (subdomain target : string) : Pdns.Request :=
  let fqdn := subdomain +:+ "." +:+ POWERDNS_ZONE in
  let targetWithDot := if Js.endsWith target "." then target else target +:+ "." in
  patch [ {| Pdns.name := fqdn;
             Pdns.type := "CNAME";
             Pdns.ttl := Some 3600%N;
             Pdns.changetype := Pdns.REPLACE;
             Pdns.records := [Pdns.mkRecord targetWithDot false] |} ].

Definition createCNAMERecord (subdomain target : string) (reply : Pdns.Reply) : M bool :=
  send (replaceCNAME subdomain target) reply.

(** The request [deleteRecord] sends. *)
Definition deleteRRset (subdomain recordType : string) : Pdns.Request :=
  let fqdn := subdomain +:+ "." +:+ POWERDNS_ZONE in
  patch [ {| Pdns.name := fqdn;
             Pdns.type := recordType;
             Pdns.ttl := None;
             Pdns.changetype := Pdns.DELETE;
             Pdns.records := [] |} ].

Definition deleteRecord (subdomain recordType : string) (reply : Pdns.Reply) : M bool :=
  send (deleteRRset subdomain recordType) reply.

Definition updateRecord (subdomain recordType content : string) (reply : Pdns.Reply) : M bool :=
  if String.eqb recordType "A" then createARecord subdomain content reply
  else if String.eqb recordType "CNAME" then createCNAMERecord subdomain content reply
  else throw (Js.mkError ("Unsupported record type: " +:+ recordType)).

(** The message of the error the client throws for a reply, if it
    throws. *)
Definition failure (reply : Pdns.Reply) : option string :=
  match reply with
  | Pdns.Response st text =>
      if Pdns.ok st then None else Some (Js.message (apiError st text))
  | Pdns.Unreachable e => Some (Js.message e)
  end.

End Client.

End PowerDNS.

(** ** pages/api/subdomains/index.js

    The handlers are modelled from the point where the authentication
    middleware has put the verified user on the request.  Every read of
    the clock within one request gives [now]; [reply] is what the DNS
    Directory answers if the handler sends it a request. *)

Module SubdomainsIndex.

Record Body : Type := mkBody {
  subdomainName : Js.value;
  targetUrl : Js.value;
  recordType : Js.value
}.

Record Request : Type := mkRequest {
  user : User;
  origin : Origin;
  body : Body
}.

(** [recordType = 'A'] in the destructuring of the body: the default
    stands in for a missing field. *)
Definition recordTypeOf (b : Body) : Js.value :=
  match recordType b with
  | Js.Undefined => Js.Str "A"
  | v => v
  end.

Section Handlers.
Context `{Validator} `{PowerDNSEnv}.

(** The target validation of [handlePost]: [None] when the record type
    is neither A nor CNAME. *)
Definition validateTarget (recordType targetUrl : Js.value)
    : Js.completion (option Validation.result) :=
  if Js.strictEq recordType "A"
  then let* v := Validation.validateIP targetUrl in Js.Normal (Some v)
  else if Js.strictEq recordType "CNAME"
  then let* v := Validation.validateURL targetUrl in Js.Normal (Some v)
  else Js.Normal None.

(** The [try] block around the DNS write: the two variables
    [dnsCreated] and [dnsError] after it. *)
Definition writeDns (recordType : Js.value) (label target : string)
    (reply : Pdns.Reply) : M (bool * option string) :=
  tryCatch
    ((if Js.strictEq recordType "A"
      then PowerDNS.createARecord label target reply ;;; ret tt
      else if Js.strictEq recordType "CNAME"
      then PowerDNS.createCNAMERecord label target reply ;;; ret tt
      else ret tt) ;;;
     ret (true, None))
    (fun error => ret (false, Some (Js.message error))).

Definition handlePost (req : Request) (now : Z) (reply : Pdns.Reply) : M Response :=
  tryCatch
    (let clientIP := RateLimit.getClientIP (origin req) in
     let user := user req in
     allowed <- RateLimit.checkRateLimit clientIP 5 (15 * 60 * 1000) now ;;
     if negb allowed
     then respond 429 (ErrorJson "Too many requests. Please try again later.")
     else
       let subdomainName := subdomainName (body req) in
       let targetUrl := targetUrl (body req) in
       let recordType := recordTypeOf (body req) in
       subdomainValidation <- lift (Validation.validateSubdomainName subdomainName) ;;
       match subdomainValidation with
       | Validation.Invalid error => respond 400 (ErrorJson error)
       | Validation.Valid label =>
           targetValidation <- lift (validateTarget recordType targetUrl) ;;
           match targetValidation with
           | None => respond 400 (ErrorJson "Invalid record type. Must be A or CNAME.")
           | Some (Validation.Invalid error) => respond 400 (ErrorJson error)
           | Some (Validation.Valid target) =>
               existingSnapshot <- Db.queryName label ;;
               if negb (Firestore.empty existingSnapshot)
               then respond 409 (ErrorJson "This subdomain is already taken")
               else
                 dns <- writeDns recordType label target reply ;;
                 let subdomainData :=
                   {| Firestore.subdomainName := label;
                      Firestore.userEmail := email user;
                      Firestore.userId := uid user;
                      Firestore.targetUrl := target;
                      Firestore.recordType := Js.toStr recordType;
                      Firestore.status := Firestore.approved;
                      Firestore.dnsCreated := dns.1;
                      Firestore.dnsError := dns.2;
                      Firestore.createdAt := now;
                      Firestore.approvedAt := Some now;
                      Firestore.updatedAt := None |} in
                 id <- Db.add subdomainData ;;
                 respond 201 (RecordJson id subdomainData)
           end
       end)
    (fun error => respond 500 (ErrorJson "Failed to create subdomain request")).

End Handlers.

End SubdomainsIndex.

(** ** pages/api/subdomains/[id].js *)

Module SubdomainsId.

(** [!user.isAdmin && data.userId !== user.uid] *)
Definition denied (user : User) (data : Firestore.Doc) : bool :=
  negb (isAdmin user) && negb (String.eqb (Firestore.userId data) (uid user)).

Section Handlers.
Context `{Validator} `{PowerDNSEnv}.

Definition handleGet (user : User) (id : string) : M Response :=
  tryCatch
    (doc <- Db.get id ;;
     match doc with
     | None => respond 404 (ErrorJson "Subdomain not found")
     | Some data =>
         if denied user data
         then respond 403 (ErrorJson "Access denied")
         else respond 200 (RecordJson id data)
     end)
    (fun error => respond 500 (ErrorJson "Failed to get subdomain")).

(** The target validation of [handlePatch]: with a record type that is
    neither A nor CNAME [targetValidation] stays undefined, and reading
    [valid] from it throws. *)
Definition validateTarget (recordType : string) (targetUrl : Js.value)
    : Js.completion Validation.result :=
  if String.eqb recordType "A" then Validation.validateIP targetUrl
  else if String.eqb recordType "CNAME" then Validation.validateURL targetUrl
  else Js.Throw (Js.TypeError "Cannot read properties of undefined (reading 'valid')").

Definition writeDns (recordType label target : string)
    (reply : Pdns.Reply) : M (bool * option string) :=
  tryCatch
    ((if String.eqb recordType "A"
      then PowerDNS.createARecord label target reply ;;; ret tt
      else if String.eqb recordType "CNAME"
      then PowerDNS.createCNAMERecord label target reply ;;; ret tt
      else ret tt) ;;;
     ret (true, None))
    (fun error => ret (false, Some (Js.message error))).

Definition handlePatch (user : User) (id : string) (targetUrl : Js.value)
    (now : Z) (reply : Pdns.Reply) : M Response :=
  tryCatch
    (doc <- Db.get id ;;
     match doc with
     | None => respond 404 (ErrorJson "Subdomain not found")
     | Some currentData =>
         if denied user currentData
         then respond 403 (ErrorJson "Access denied")
         else if negb (Js.truthy targetUrl)
         then respond 400 (ErrorJson "targetUrl is required")
         else
           targetValidation <-
             lift (validateTarget (Firestore.recordType currentData) targetUrl) ;;
           match targetValidation with
           | Validation.Invalid error => respond 400 (ErrorJson error)
           | Validation.Valid target =>
               dns <- writeDns (Firestore.recordType currentData)
                        (Firestore.subdomainName currentData) target reply ;;
               let updateData :=
                 {| Firestore.p_targetUrl := target;
                    Firestore.p_dnsCreated := dns.1;
                    Firestore.p_dnsError := dns.2;
                    Firestore.p_updatedAt := now |} in
               Db.update id updateData ;;;
               updatedDoc <- Db.get id ;;
               match updatedDoc with
               | Some updatedData => respond 200 (RecordJson id updatedData)
               | None =>
                   throw (Js.TypeError
                            "Cannot read properties of undefined (reading 'createdAt')")
               end
           end
     end)
    (fun error => respond 500 (ErrorJson "Failed to update subdomain")).

Definition handleDelete (user : User) (id : string) (reply : Pdns.Reply) : M Response :=
  tryCatch
    (doc <- Db.get id ;;
     match doc with
     | None => respond 404 (ErrorJson "Subdomain not found")
     | Some data =>
         if denied user data
         then respond 403 (ErrorJson "Access denied")
         else
           (if Firestore.dnsCreated data
            then tryCatch
                   (PowerDNS.deleteRecord (Firestore.subdomainName data)
                      (Firestore.recordType data) reply ;;; ret tt)
                   (fun dnsError => ret tt)
            else ret tt) ;;;
           Db.delete id ;;;
           respond 200 DeletedJson
     end)
    (fun error => respond 500 (ErrorJson "Failed to delete subdomain")).

End Handlers.

Section Dispatch.
Context `{Validator} `{PowerDNSEnv}.

(** The exported [handler]: [id] is the [id] of the query, [user] the
    identity the middleware finds for the request, and [targetUrl] the
    field of the body that [handlePatch] reads. *)
Definition handler (method : string) (id : string) (user : User) (targetUrl : Js.value)
    (now : Z) (reply : Pdns.Reply) : M Response :=
  if negb (Js.truthy (Js.Str id))
  then respond 400 (ErrorJson "Subdomain ID is required")
  else
    tryCatch
      (if String.eqb method "GET" then handleGet user id
       else if String.eqb method "PATCH" then handlePatch user id targetUrl now reply
       else if String.eqb method "DELETE" then handleDelete user id reply
       else respond 405 (ErrorJson "Method not allowed"))
      (fun error => respond 500 (ErrorJson "Internal server error")).

End Dispatch.

End SubdomainsId.

(** ** pages/api/subdomains/check.js *)

Module SubdomainsCheck.

Definition handler (method : string) (name : Js.value) : M Response :=
  if negb (String.eqb method "GET")
  then respond 405 (ErrorJson "Method not allowed")
  else
    tryCatch
      (if negb (Js.truthy name)
       then respond 400 (ErrorJson "Subdomain name is required")
       else
         validation <- lift (Validation.validateSubdomainName name) ;;
         match validation with
         | Validation.Invalid error => respond 200 (AvailabilityJson false (Some error))
         | Validation.Valid value =>
             snapshot <- Db.queryName value ;;
             let available := Firestore.empty snapshot in
             respond 200
               (AvailabilityJson available
                  (if available then None else Some "This subdomain is already taken"))
         end)
      (fun error => respond 500 (ErrorJson "Failed to check availability")).

End SubdomainsCheck.

(** ** A concrete deployment, for running the handlers *)

Definition env_example : PowerDNSEnv :=
  {| POWERDNS_API_URL := "http://127.0.0.1:8081";
     POWERDNS_API_KEY := "secret";
     POWERDNS_ZONE := "example.org." |}.

Definition world0 : World :=
  {| subdomains := ∅; rateLimit := ∅; zone := ∅; trace := [] |}.

Definition owner1 : User := mkUser "owner1" "one@example.org" false.
Definition owner2 : User := mkUser "owner2" "two@example.org" false.
Definition admin : User := mkUser "root" "admin@example.org" true.

Definition origin1 : Origin := mkOrigin (Some "203.0.113.7, 10.0.0.1") None None.

Definition post (u : User) (label : string) (rt : string) (target : string)
    : SubdomainsIndex.Request :=
  SubdomainsIndex.mkRequest u origin1
    (SubdomainsIndex.mkBody (Js.Str label) (Js.Str target) (Js.Str rt)).

Definition reply_ok : Pdns.Reply := Pdns.Response 204 "".
Definition reply_down : Pdns.Reply := Pdns.Unreachable (Js.mkError "fetch failed").
Definition reply_401 : Pdns.Reply := Pdns.Response 401 "Unauthorized".

(** ** The specification's wording, for comparison with the code *)

Module Spec.

(** A character of [[a-z0-9-]]. *)
Definition labelAlphabet (c : ascii) : Prop :=
  (97 <= nat_of_ascii c <= 122)%nat \/ (48 <= nat_of_ascii c <= 57)%nat \/ c = "-"%char.

(** The specification's label: it matches [[a-z0-9-]{3,63}], neither
    starts nor ends with a hyphen, and is not reserved. *)
Definition label (t : string) : Prop :=
  (3 <= String.length t <= 63)%nat
  /\ (forall i c, String.get i t = Some c -> labelAlphabet c)
  /\ String.get 0 t <> Some "-"%char
  /\ String.get (String.length t - 1) t <> Some "-"%char
  /\ ~ In t ["www"; "mail"; "ftp"; "admin"; "root"; "api"; "ns1"; "ns2"].

(** The normal form of a requested name. *)
Definition normalize (s : string) : string := Js.toLowerCase (Js.trim s).

(** Section 4.5: the actor is an administrator or owns the record. *)
Definition canMutate (actor : User) (record : Firestore.Doc) : bool :=
  isAdmin actor || String.eqb (uid actor) (Firestore.userId record).


(** An active record holds the label. *)
Definition taken (label : string) (c : gmap string Firestore.Doc) : Prop :=
  exists id d, c !! id = Some d /\ Firestore.subdomainName d = label.

End Spec.

(** ** Vocabulary for the statements *)

(** The two variables [dnsCreated] and [dnsError] after the [try] block
    of a write that was answered with [reply]. *)
Definition dnsFlags (reply : Pdns.Reply) : bool * option string :=
  match PowerDNS.failure reply with
  | None => (true, None)
  | Some m => (false, Some m)
  end.

(** The request a write of the given record type sends. *)
Definition upsertRequest `{PowerDNSEnv} (recordType label target : string) : Pdns.Request :=
  if String.eqb recordType "A" then PowerDNS.replaceA label target
  else PowerDNS.replaceCNAME label target.

(** The rate limiter lets a request from this origin through. *)
Definition admitted (o : Origin) (now : Z) (w : World) : Prop :=
  (RateLimit.checkRateLimit (RateLimit.getClientIP o) 5 (15 * 60 * 1000) now w).1
  = Js.Normal true.

(** The world once the rate limiter has counted a request. *)
Definition counted (o : Origin) (now : Z) (w : World) : World :=
  (RateLimit.checkRateLimit (RateLimit.getClientIP o) 5 (15 * 60 * 1000) now w).2.

(** The events a run has added to the trace. *)
Definition added (w w' : World) (evs : list Event) : Prop :=
  trace w' = (trace w ++ evs)%list.

(** The document [handlePost] hands to the store. *)
Definition createdDoc (user : User) (label target rt : string) (reply : Pdns.Reply)
    (now : Z) : Firestore.Doc :=
  {| Firestore.subdomainName := label;
     Firestore.userEmail := email user;
     Firestore.userId := uid user;
     Firestore.targetUrl := target;
     Firestore.recordType := rt;
     Firestore.status := Firestore.approved;
     Firestore.dnsCreated := (dnsFlags reply).1;
     Firestore.dnsError := (dnsFlags reply).2;
     Firestore.createdAt := now;
     Firestore.approvedAt := Some now;
     Firestore.updatedAt := None |}.

(** Section 4.2: the target passes the validator of the record type, which
    hands back [target]. *)
Definition targetAccepted `{Validator} (recordType : string) (targetUrl : Js.value)
    (target : string) : Prop :=
  (recordType = "A"
   /\ Validation.validateIP targetUrl = Js.Normal (Validation.Valid target))
  \/ (recordType = "CNAME"
      /\ Validation.validateURL targetUrl = Js.Normal (Validation.Valid target)).

(** A create call whose label and target pass validation. *)
Definition wellFormed `{Validator} (req : SubdomainsIndex.Request)
    (label rt target : string) : Prop :=
  Validation.validateSubdomainName (SubdomainsIndex.subdomainName (SubdomainsIndex.body req))
    = Js.Normal (Validation.Valid label)
  /\ SubdomainsIndex.recordTypeOf (SubdomainsIndex.body req) = Js.Str rt
  /\ targetAccepted rt (SubdomainsIndex.targetUrl (SubdomainsIndex.body req)) target.

(** The answers of a successful create and of a successful update. *)
Definition created (id : string) (d : Firestore.Doc) : Response :=
  mkResponse 201 (RecordJson id d).

Definition updated (id : string) (d : Firestore.Doc) : Response :=
  mkResponse 200 (RecordJson id d).

Definition failed (c : N) (error : string) : Response :=
  mkResponse c (ErrorJson error).

(** The document after [handlePatch] has merged its update. *)
Definition patchedDoc (d : Firestore.Doc) (target : string) (reply : Pdns.Reply)
    (now : Z) : Firestore.Doc :=
  Firestore.merge
    {| Firestore.p_targetUrl := target;
       Firestore.p_dnsCreated := (dnsFlags reply).1;
       Firestore.p_dnsError := (dnsFlags reply).2;
       Firestore.p_updatedAt := now |} d.

(** The world with more events on its trace and nothing else changed. *)
Definition logged (w : World) (evs : list Event) : World :=
  {| subdomains := subdomains w; rateLimit := rateLimit w;
     zone := zone w; trace := (trace w ++ evs)%list |}.

(** ** The API as a transition system *)

Inductive Call : Type :=
| Create (req : SubdomainsIndex.Request)
| Get (user : User) (id : string)
| UpdateTarget (user : User) (id : string) (targetUrl : Js.value)
| Delete (user : User) (id : string)
| CheckAvailability (method : string) (name : Js.value).

Definition call `{Validator} `{PowerDNSEnv} (c : Call) (now : Z) (reply : Pdns.Reply)
    : M Response :=
  match c with
  | Create req => SubdomainsIndex.handlePost req now reply
  | Get user id => SubdomainsId.handleGet user id
  | UpdateTarget user id targetUrl => SubdomainsId.handlePatch user id targetUrl now reply
  | Delete user id => SubdomainsId.handleDelete user id reply
  | CheckAvailability method name => SubdomainsCheck.handler method name
  end.

(** [history w evs w']: a sequence of API calls, at any times and with any
    replies of the directory, takes [w] to [w'] and adds [evs] to the
    trace. *)
Inductive history `{Validator} `{PowerDNSEnv} : World -> list Event -> World -> Prop :=
| history_nil (w : World) : history w [] w
| history_call (w w1 w2 : World) (evs evs' : list Event)
    (c : Call) (now : Z) (reply : Pdns.Reply) (r : Js.completion Response) :
    history w evs w1 ->
    call c now reply w1 = (r, w2) ->
    trace w2 = (trace w1 ++ evs')%list ->
    history w (evs ++ evs')%list w2.

(** What one call can do to the store. *)
Inductive StoreEffect (w w' : World) (evs : list Event) : Prop :=
| Untouched :
    subdomains w' = subdomains w ->
    (forall j, ~ In (StoreDelete j) evs) ->
    StoreEffect w w' evs
| Added (id : string) (d : Firestore.Doc) :
    subdomains w !! id = None ->
    ~ Spec.taken (Firestore.subdomainName d) (subdomains w) ->
    subdomains w' = <[id := d]> (subdomains w) ->
    (forall j, ~ In (StoreDelete j) evs) ->
    StoreEffect w w' evs
| Patched (id : string) (d : Firestore.Doc) (p : Firestore.Patch) :
    subdomains w !! id = Some d ->
    subdomains w' = <[id := Firestore.merge p d]> (subdomains w) ->
    (forall j, ~ In (StoreDelete j) evs) ->
    StoreEffect w w' evs
| Removed (id : string) :
    subdomains w' = delete id (subdomains w) ->
    In (StoreDelete id) evs ->
    StoreEffect w w' evs.

(** The record [id] holds the label, and no other record does. *)
Definition holds (id label : string) (c : gmap string Firestore.Doc) : Prop :=
  (exists d, c !! id = Some d /\ Firestore.subdomainName d = label)
  /\ (forall j dj, c !! j = Some dj -> Firestore.subdomainName dj = label -> j = id).

(** The world after [owner1] has registered "alice", and the record. *)
Definition alice_record : Firestore.Doc :=
  createdDoc owner1 "alice" "10.0.0.5" "A" reply_ok 1000.

Definition world1 : World :=
  (@SubdomainsIndex.handlePost validator_js env_example
     (post owner1 "alice" "A" "10.0.0.5") 1000 reply_ok world0).2.

(** The fields of a record that no operation is meant to change. *)
Definition sameIdentity (d d' : Firestore.Doc) : Prop :=
  Firestore.subdomainName d' = Firestore.subdomainName d
  /\ Firestore.userEmail d' = Firestore.userEmail d
  /\ Firestore.userId d' = Firestore.userId d
  /\ Firestore.recordType d' = Firestore.recordType d
  /\ Firestore.status d' = Firestore.status d
  /\ Firestore.createdAt d' = Firestore.createdAt d
  /\ Firestore.approvedAt d' = Firestore.approvedAt d.


(** ** lib/validation.js: the two validators no handler calls *)

(** The two other functions the code takes from the [validator]
    package. *)
Class ValidatorText : Type := {
  isEmail : string -> bool;
  escape : string -> string
}.

Module ValidationText.

Section WithValidatorText.
Context `{ValidatorText}.

Definition validateEmail (email : Js.value) : Js.completion Validation.result :=
  if negb (Js.truthy email) || negb (String.eqb (Js.typeof email) "string")
  then Js.Normal (Validation.Invalid "Email is required")
  else
    let* s := Js.assertString email in
    if negb (isEmail s)
    then Js.Normal (Validation.Invalid "Invalid email address")
    else Js.Normal (Validation.Valid (Js.trim (Js.toLowerCase s))).

(** [s.substring(0, maxLength)]: a negative bound counts as 0. *)
Definition substring0 (maxLength : Z) (s : string) : string :=
  String.substring 0 (Z.to_nat maxLength) s.

(** [sanitizeText(text, maxLength)]; the caller who leaves [maxLength]
    out gets 500. *)
Definition sanitizeText (text : Js.value) (maxLength : Z) : Js.completion string :=
  if negb (Js.truthy text) then Js.Normal ""
  else
    let* t := Js.call_trim text in
    Js.Normal (escape (substring0 maxLength t)).

End WithValidatorText.

End ValidationText.

(** ** More vocabulary *)


(** The world with another rate-limit map and nothing else changed. *)
Definition withRateLimit (rl : gmap string RateEntry) (w : World) : World :=
  {| subdomains := subdomains w; rateLimit := rl; zone := zone w; trace := trace w |}.

(** A request is one that [createARecord], [createCNAMERecord] or
    [deleteRecord] sends: a PATCH of the zone, with the API key, that
    carries one record set for the name of the subdomain in the zone. *)
Definition clientRequest `{PowerDNSEnv} (subdomain : string) (rq : Pdns.Request) : Prop :=
  Pdns.url rq = PowerDNS.zoneUrl
  /\ Pdns.method rq = "PATCH"
  /\ In ("X-API-Key", POWERDNS_API_KEY) (Pdns.headers rq)
  /\ exists c, Pdns.rrsets rq = [c]
              /\ Pdns.name c = subdomain +:+ "." +:+ POWERDNS_ZONE.

(** The string has no comma in it. *)
Definition noComma (s : string) : bool :=
  Js.every (fun c => negb (Ascii.eqb c ",")) s.

(** A world where the address of [origin1] has used up its five requests
    in a window that is open until 900000, and the world after [owner1] has
    deleted the record of "alice". *)
Definition world_busy : World :=
  withRateLimit {[ "203.0.113.7" := mkRateEntry 5 900000 ]} world0.

Definition world2 : World :=
  (@SubdomainsId.handleDelete env_example owner1 "0" reply_ok world1).2.

(** * Running the definitions *)

Example trim_ex : Js.trim "  Ab c	 " = "Ab c".
Proof. reflexivity. Qed.

Example label_ex :
  Validation.validateSubdomainName (Js.Str " My-Site ") = Js.Normal (Validation.Valid "my-site").
Proof. reflexivity. Qed.

Example label_ex2 :
  Validation.validateSubdomainName (Js.Str "www") = Js.Normal (Validation.Invalid "This subdomain name is reserved").
Proof. reflexivity. Qed.

Example ip_ex : map (fun s => ValidatorJs.isIP s 4) ["10.0.0.5"; "256.1.1.1"; "1.2.3"; "01.2.3.4"; "not-an-ip"; "0.0.0.0"]
  = [true; false; false; false; false; true].
Proof. reflexivity. Qed.

Example fqdn_ex : map ValidatorJs.isFQDN ["example.com"; "https://example.com/"; "localhost"; "a.b.c1"; "a_b.com"; "-a.com"; "example.com."; "x.123"; "sub.example.org"]
  = [true; false; false; false; false; false; false; false; true].
Proof. reflexivity. Qed.

Example url_ex : @Validation.validateURL validator_js (Js.Str " https://example.com/ ") = Js.Normal (Validation.Valid "https://example.com/").
Proof. reflexivity. Qed.


(** * Strings *)

Lemma every_get (p : ascii -> bool) (s : string) :
  Js.every p s = true <-> forall i c, String.get i s = Some c -> p c = true.
Proof.
  induction s as [|a s IH]; simpl.
  - split; [intros _ i c Hi; destruct i; discriminate | reflexivity].
  - rewrite andb_true_iff, IH. split.
    + intros [Ha Hs] [|i] c Hc; simpl in Hc; [congruence | eauto].
    + intros Hall. split; [apply (Hall 0%nat); reflexivity |].
      intros i c Hc. apply (Hall (S i)). exact Hc.
Qed.

Lemma startsWith_hyphen (s : string) :
  Js.startsWith s "-" = true <-> String.get 0 s = Some "-"%char.
Proof.
  unfold Js.startsWith. destruct s as [|a s]; [split; discriminate |].
  change (String.prefix "-" (String a s))
    with (if ascii_dec "-" a then String.prefix "" s else false).
  change (String.get 0 (String a s)) with (Some a).
  destruct (ascii_dec "-" a) as [<- | Hne].
  - split; [reflexivity | intros _; destruct s; reflexivity].
  - split; [discriminate | intros [= E]; congruence].
Qed.

Lemma rev_app_head (s acc : string) :
  s <> "" -> String.get 0 (String.rev_app s acc) = String.get (String.length s - 1) s.
Proof.
  revert acc. induction s as [|a s IH]; intros acc Hs; [congruence |].
  simpl. destruct s as [|b s].
  - reflexivity.
  - rewrite IH by discriminate. simpl. rewrite Nat.sub_0_r. reflexivity.
Qed.

Lemma endsWith_hyphen (s : string) :
  s <> "" ->
  Js.endsWith s "-" = true <-> String.get (String.length s - 1) s = Some "-"%char.
Proof.
  intros Hs. unfold Js.endsWith. rewrite <- (rev_app_head s "") by exact Hs.
  change (String.rev "-") with "-". apply startsWith_hyphen.
Qed.

Lemma labelChar_alphabet (c : ascii) :
  Validation.labelChar c = true <-> Spec.labelAlphabet c.
Proof.
  unfold Validation.labelChar, Spec.labelAlphabet, Js.between, Js.code.
  rewrite !orb_true_iff, !andb_true_iff, !N.leb_le, N.eqb_eq.
  assert (Hc : N_of_ascii c = N.of_nat (nat_of_ascii c))
    by (unfold nat_of_ascii; rewrite N2Nat.id; reflexivity).
  split.
  - intros [[H | H] | H].
    + left. lia.
    + right; left. lia.
    + right; right. rewrite <- (ascii_N_embedding c), H. reflexivity.
  - intros [H | [H | ->]].
    + left; left. lia.
    + left; right. lia.
    + right. reflexivity.
Qed.

Lemma includes_In (l : list string) (s : string) :
  Validation.includes l s = true <-> In s l.
Proof.
  unfold Validation.includes. rewrite existsb_exists. split.
  - intros (x & Hx & E). apply String.eqb_eq in E. subst. exact Hx.
  - intros Hin. exists s. split; [exact Hin | apply String.eqb_refl].
Qed.

(** * The Name Validator *)

(** The checks of [validateSubdomainName] on the normalized name say what
    the specification's label says. *)
Lemma label_checks (t : string) :
  Spec.label t <->
  ((String.length t <? 3)%nat || (63 <? String.length t)%nat = false
   /\ Validation.re_label t = true
   /\ Js.startsWith t "-" || Js.endsWith t "-" = false
   /\ Validation.includes Validation.reserved t = false).
Proof.
  unfold Spec.label, Validation.re_label.
  rewrite !orb_false_iff, !Nat.ltb_ge, andb_true_iff, negb_true_iff.
  rewrite <- (not_true_iff_false (Validation.includes _ _)), includes_In.
  rewrite <- (not_true_iff_false (Js.startsWith _ _)), startsWith_hyphen.
  rewrite every_get.
  split.
  - intros ((Hlo & Hhi) & Hall & H0 & Hlast & Hres).
    assert (Hne : t <> "") by (intros ->; simpl in Hlo; lia).
    repeat split; try lia; try assumption.
    + destruct t; [congruence | reflexivity].
    + intros i c Hc. apply labelChar_alphabet. eauto.
    + apply not_true_iff_false. rewrite endsWith_hyphen by exact Hne. exact Hlast.
  - intros ((Hlo & Hhi) & (Hne & Hall) & (H0 & Hlast) & Hres).
    assert (Hne' : t <> "") by (intros ->; simpl in Hlo; lia).
    repeat split; try lia; try assumption.
    + intros i c Hc. apply labelChar_alphabet. eauto.
    + rewrite <- endsWith_hyphen by exact Hne'. apply not_true_iff_false. exact Hlast.
Qed.

(** The validator returns on every input. *)
Lemma validateSubdomainName_returns (v : Js.value) :
  exists r, Validation.validateSubdomainName v = Js.Normal r.
Proof.
  unfold Validation.validateSubdomainName.
  destruct v as [| |b|n|s|]; cbn [Js.truthy Js.typeof];
    try (eexists; reflexivity).
  - destruct b; eexists; reflexivity.
  - destruct (negb (n =? 0)%Z); eexists; reflexivity.
  - change ("string" =? "string") with true.
    destruct (negb (String.eqb s "")); cbn [negb orb]; [| eexists; reflexivity].
    cbn [Js.call_trim Js.bind].
    repeat match goal with
           | |- context [if ?c then _ else _] => destruct c
           end; eexists; reflexivity.
Qed.

(** C5. [validateSubdomainName] always returns and never throws.  For a
    string whose trimmed, lowercased form is a label of the specification
    (it matches [[a-z0-9-]{3,63}], has no hyphen at either end and is not
    reserved) the result is valid and carries that form; for every other
    input, strings or not, the result is invalid and carries a reason. *)
Theorem validateSubdomainName_total_exact (v : Js.value) :
  exists r, Validation.validateSubdomainName v = Js.Normal r /\
    match v with
    | Js.Str s =>
        (Spec.label (Spec.normalize s) /\ r = Validation.Valid (Spec.normalize s))
        \/ (~ Spec.label (Spec.normalize s) /\ exists reason, r = Validation.Invalid reason)
    | _ => exists reason, r = Validation.Invalid reason
    end.
Proof.
  destruct v as [| |b|n|s|]; try (eexists; split; [reflexivity | eauto]).
  - simpl. destruct b; eexists; split; try reflexivity; eauto.
  - unfold Validation.validateSubdomainName; simpl.
    destruct (negb (n =? 0)%Z); eexists; split; try reflexivity; eauto.
  - unfold Validation.validateSubdomainName.
    change (Js.truthy (Js.Str s)) with (negb (String.eqb s "")).
    change (String.eqb (Js.typeof (Js.Str s)) "string") with true.
    destruct (String.eqb s "") eqn:Es; cbn [negb orb].
    + apply String.eqb_eq in Es. subst s. eexists. split; [reflexivity |].
      right. split; [| eauto]. intros ((Hlo & _) & _). simpl in Hlo. lia.
    + change (Js.call_trim (Js.Str s)) with (Js.Normal (Js.trim s)).
      cbn [Js.bind]. fold (Spec.normalize s). set (t := Spec.normalize s).
      pose proof (label_checks t) as L.
      destruct ((String.length t <? 3)%nat || (63 <? String.length t)%nat) eqn:E1.
      { eexists. split; [reflexivity |]. right. split; [| eauto].
        intros Hl. apply L in Hl. destruct Hl as (? & _). discriminate. }
      destruct (Validation.re_label t) eqn:E2; cbn [negb].
      2:{ eexists. split; [reflexivity |]. right. split; [| eauto].
          intros Hl. apply L in Hl. destruct Hl as (_ & ? & _). discriminate. }
      destruct (Js.startsWith t "-" || Js.endsWith t "-") eqn:E3.
      { eexists. split; [reflexivity |]. right. split; [| eauto].
        intros Hl. apply L in Hl. destruct Hl as (_ & _ & ? & _). discriminate. }
      destruct (Validation.includes Validation.reserved t) eqn:E4.
      { eexists. split; [reflexivity |]. right. split; [| eauto].
        intros Hl. apply L in Hl. destruct Hl as (_ & _ & _ & ?). discriminate. }
      eexists. split; [reflexivity |]. left. split; [| reflexivity].
      apply L. auto.
Qed.

(** * The store and the client *)

Ltac run :=
  unfold bindM, tryCatch, ret, throw, lift, respond, emit, gets, setSubdomains,
    setRateLimit, setZone;
  cbn [subdomains rateLimit zone trace fst snd Js.bind negb].

Lemma whereName_empty (v : string) (c : gmap string Firestore.Doc) :
  Firestore.empty (Firestore.whereName v c) = true <-> ~ Spec.taken v c.
Proof.
  unfold Firestore.whereName, Spec.taken.
  set (m := filter _ c).
  assert (Hm : map_to_list m = [] <-> ~ exists id d, c !! id = Some d /\ Firestore.subdomainName d = v).
  { rewrite map_to_list_empty_iff. unfold m. rewrite map_empty. split.
    - intros Hall (id & d & Hd & Hv).
      specialize (Hall id). apply map_lookup_filter_None in Hall.
      destruct Hall as [Hn | Hn]; [congruence | exact (Hn d Hd Hv)].
    - intros Hno id. apply map_lookup_filter_None.
      destruct (c !! id) as [d|] eqn:Hd; [right | left; reflexivity].
      intros x [= <-] Hv. apply Hno. eauto. }
  rewrite <- Hm. destruct (map_to_list m); simpl; split; congruence.
Qed.

Lemma whereName_taken (v : string) (c : gmap string Firestore.Doc) :
  Firestore.empty (Firestore.whereName v c) = false <-> Spec.taken v c.
Proof.
  rewrite <- not_true_iff_false, whereName_empty.
  split; [| tauto]. intros Hnn.
  unfold Spec.taken. unfold Firestore.whereName in *.
  destruct (Firestore.empty (Firestore.whereName v c)) eqn:E.
  - apply whereName_empty in E. tauto.
  - apply not_true_iff_false in E. rewrite whereName_empty in E.
    unfold Firestore.whereName in E.
    set (m := filter (fun kd => Firestore.subdomainName kd.2 = v) c) in *.
    destruct (map_to_list m) as [|[id d] l] eqn:El.
    + exfalso. apply E. intros (id & d & Hd & Hv).
      assert (Hin : m !! id = Some d) by (unfold m; apply map_lookup_filter_Some; auto).
      apply elem_of_map_to_list in Hin. rewrite El in Hin. inversion Hin.
    + assert (Hin : (id, d) ∈ map_to_list m) by (rewrite El; left).
      apply elem_of_map_to_list in Hin. unfold m in Hin.
      apply map_lookup_filter_Some in Hin. destruct Hin as [Hd Hv]. eauto.
Qed.

Lemma autoId_unused (c : gmap string Firestore.Doc) : c !! Firestore.autoId c = None.
Proof. apply not_elem_of_dom. unfold Firestore.autoId. apply is_fresh. Qed.

Lemma send_run `{PowerDNSEnv} (rq : Pdns.Request) (reply : Pdns.Reply) (w : World) :
  PowerDNS.send rq reply w =
  (match PowerDNS.failure reply with
   | None => Js.Normal true
   | Some m => Js.Throw (Js.mkError m)
   end, afterPatch rq reply w).
Proof.
  unfold PowerDNS.send, PowerDNS.fetch, PowerDNS.failure, afterPatch.
  destruct reply as [st text | [m]]; run.
  - destruct (Pdns.ok st); reflexivity.
  - reflexivity.
Qed.

Lemma failure_accepted (reply : Pdns.Reply) :
  PowerDNS.failure reply = None <-> Pdns.accepted reply = true.
Proof.
  destruct reply as [st text | e]; simpl.
  - destruct (Pdns.ok st); split; congruence.
  - split; congruence.
Qed.

Lemma denied_canMutate (user : User) (d : Firestore.Doc) :
  SubdomainsId.denied user d = negb (Spec.canMutate user d).
Proof.
  unfold SubdomainsId.denied, Spec.canMutate.
  rewrite negb_orb, (String.eqb_sym (uid user)). reflexivity.
Qed.

(** * Deleting a record *)

(** What [handleDelete] does for an actor who may mutate the record. *)
Lemma delete_of_authorized `{PowerDNSEnv}
    (user : User) (id : string) (reply : Pdns.Reply) (w : World) (d : Firestore.Doc) :
  subdomains w !! id = Some d ->
  Spec.canMutate user d = true ->
  exists w',
    SubdomainsId.handleDelete user id reply w
      = (Js.Normal (mkResponse 200 DeletedJson), w')
    /\ subdomains w' = delete id (subdomains w)
    /\ subdomains w' !! id = None
    /\ trace w' = (trace w ++ [StoreGet id]
                   ++ (if Firestore.dnsCreated d
                       then [DnsPatch (PowerDNS.deleteRRset (Firestore.subdomainName d)
                                         (Firestore.recordType d))]
                       else [])
                   ++ [StoreDelete id])%list.
Proof.
  intros Hd Hcan.
  unfold SubdomainsId.handleDelete, Db.get, Db.delete. run.
  rewrite Hd. rewrite denied_canMutate, Hcan. run.
  destruct (Firestore.dnsCreated d); run.
  - unfold PowerDNS.deleteRecord. rewrite send_run.
    destruct (PowerDNS.failure reply); run;
      (eexists; split; [reflexivity |]; cbn [subdomains trace afterPatch];
       split; [reflexivity |]; split; [apply lookup_delete_eq |];
       rewrite <- !app_assoc; reflexivity).
  - eexists; split; [reflexivity |]; cbn [subdomains trace].
    split; [reflexivity |]; split; [apply lookup_delete_eq |].
    rewrite <- !app_assoc; reflexivity.
Qed.

(** A delete that answers with success has removed the record. *)
Lemma handleDelete_deleted_inv `{PowerDNSEnv}
    (user : User) (id : string) (reply : Pdns.Reply) (w w' : World) :
  SubdomainsId.handleDelete user id reply w = (Js.Normal (mkResponse 200 DeletedJson), w') ->
  subdomains w' = delete id (subdomains w).
Proof.
  intros Hrun.
  destruct (subdomains w !! id) as [d|] eqn:Hd.
  - destruct (Spec.canMutate user d) eqn:Hcan.
    + destruct (delete_of_authorized user id reply w d Hd Hcan) as (w1 & Hrun1 & Hs & _).
      rewrite Hrun1 in Hrun. injection Hrun as <-. exact Hs.
    + revert Hrun. unfold SubdomainsId.handleDelete, Db.get. run.
      rewrite Hd, denied_canMutate, Hcan. discriminate.
  - revert Hrun. unfold SubdomainsId.handleDelete, Db.get. run.
    rewrite Hd. discriminate.
Qed.

(** C3. For a record that exists and that the actor may mutate, [delete]
    answers with success and the record is gone from the store, whatever
    the DNS Directory replies.  A DELETE request goes out to the directory
    exactly when the record has [dnsCreated = true]; when that request
    fails, the failure changes neither the answer nor the removal. *)
Theorem delete_unconditional `{PowerDNSEnv}
    (user : User) (id : string) (reply : Pdns.Reply) (w : World) (d : Firestore.Doc) :
  subdomains w !! id = Some d ->
  Spec.canMutate user d = true ->
  exists w',
    SubdomainsId.handleDelete user id reply w
      = (Js.Normal (mkResponse 200 DeletedJson), w')
    /\ subdomains w' = delete id (subdomains w)
    /\ subdomains w' !! id = None
    /\ trace w' = (trace w ++ [StoreGet id]
                   ++ (if Firestore.dnsCreated d
                       then [DnsPatch (PowerDNS.deleteRRset (Firestore.subdomainName d)
                                         (Firestore.recordType d))]
                       else [])
                   ++ [StoreDelete id])%list.
Proof. apply delete_of_authorized. Qed.

(** * Creating a record *)

Lemma checkRateLimit_frame (identifier : string) (maxRequests : N) (windowMs now : Z)
    (w : World) :
  exists b rl,
    RateLimit.checkRateLimit identifier maxRequests windowMs now w
    = (Js.Normal b, mkWorld (subdomains w) rl (zone w) (trace w)).
Proof.
  unfold RateLimit.checkRateLimit. run.
  destruct (rateLimit w !! identifier) as [record|]; run.
  - destruct (resetTime record <? now)%Z; run; [eauto |].
    destruct (count record <? maxRequests)%N; run; [eauto |].
    exists false, (rateLimit w). destruct w; reflexivity.
  - eauto.
Qed.

Lemma validateTarget_type `{Validator} (rt t : Js.value) (v : Validation.result) :
  SubdomainsIndex.validateTarget rt t = Js.Normal (Some v) ->
  rt = Js.Str "A" \/ rt = Js.Str "CNAME".
Proof.
  unfold SubdomainsIndex.validateTarget.
  destruct rt as [| | | |s|]; cbn [Js.strictEq]; try discriminate.
  destruct (String.eqb s "A") eqn:EA.
  - apply String.eqb_eq in EA. subst. auto.
  - destruct (String.eqb s "CNAME") eqn:EC; [| discriminate].
    apply String.eqb_eq in EC. subst. auto.
Qed.

Lemma index_writeDns_run `{PowerDNSEnv} (rt label target : string) (reply : Pdns.Reply)
    (w : World) :
  rt = "A" \/ rt = "CNAME" ->
  SubdomainsIndex.writeDns (Js.Str rt) label target reply w
  = (Js.Normal (dnsFlags reply), afterPatch (upsertRequest rt label target) reply w).
Proof.
  intros [-> | ->]; unfold SubdomainsIndex.writeDns, upsertRequest, dnsFlags,
    PowerDNS.createARecord, PowerDNS.createCNAMERecord;
    cbn [Js.strictEq]; change ("A" =? "A") with true;
    change ("CNAME" =? "A") with false; change ("CNAME" =? "CNAME") with true;
    cbv iota; run; rewrite send_run;
    destruct (PowerDNS.failure reply); reflexivity.
Qed.

(** What [handlePost] does once the request is through the rate limiter
    and both validations have passed. *)
Lemma handlePost_validated `{Validator} `{PowerDNSEnv}
    (req : SubdomainsIndex.Request) (now : Z) (reply : Pdns.Reply) (w : World)
    (label target : string) :
  admitted (SubdomainsIndex.origin req) now w ->
  Validation.validateSubdomainName (SubdomainsIndex.subdomainName (SubdomainsIndex.body req))
    = Js.Normal (Validation.Valid label) ->
  SubdomainsIndex.validateTarget (SubdomainsIndex.recordTypeOf (SubdomainsIndex.body req))
    (SubdomainsIndex.targetUrl (SubdomainsIndex.body req))
    = Js.Normal (Some (Validation.Valid target)) ->
  exists rt rl,
    SubdomainsIndex.recordTypeOf (SubdomainsIndex.body req) = Js.Str rt
    /\ (rt = "A" \/ rt = "CNAME")
    /\ rateLimit (counted (SubdomainsIndex.origin req) now w) = rl
    /\ SubdomainsIndex.handlePost req now reply w =
       if Firestore.empty (Firestore.whereName label (subdomains w))
       then
         let id := Firestore.autoId (subdomains w) in
         let d := createdDoc (SubdomainsIndex.user req) label target rt reply now in
         (Js.Normal (mkResponse 201 (RecordJson id d)),
          {| subdomains := <[id := d]> (subdomains w);
             rateLimit := rl;
             zone := Pdns.serve (upsertRequest rt label target) reply (zone w);
             trace := (trace w ++ [StoreQuery label; DnsPatch (upsertRequest rt label target);
                                   StoreAdd id])%list |})
       else
         (Js.Normal (mkResponse 409 (ErrorJson "This subdomain is already taken")),
          {| subdomains := subdomains w;
             rateLimit := rl;
             zone := zone w;
             trace := (trace w ++ [StoreQuery label])%list |}).
Proof.
  intros Hadm Hlabel Htarget.
  destruct (validateTarget_type _ _ _ Htarget) as [Hrt | Hrt].
  all: [> exists "A" | exists "CNAME"].
  all: eexists; split; [exact Hrt |]; split; [auto |]; split; [reflexivity |].
  all: unfold SubdomainsIndex.handlePost, counted; unfold admitted in Hadm.
  all: destruct (checkRateLimit_frame
                   (RateLimit.getClientIP (SubdomainsIndex.origin req)) 5
                   (15 * 60 * 1000) now w) as (b & rl & Hrl).
  all: rewrite Hrl in Hadm; cbn [fst] in Hadm; injection Hadm as ->.
  all: run; rewrite Hrl; run; rewrite Hlabel; run; rewrite Htarget; run.
  all: unfold Db.queryName; run.
  all: destruct (Firestore.empty (Firestore.whereName label (subdomains w)));
    run; [| reflexivity].
  all: rewrite Hrt.
  all: rewrite index_writeDns_run by auto.
  all: unfold Db.add; run; cbn [afterPatch subdomains rateLimit zone trace Js.toStr].
  all: rewrite <- !app_assoc; reflexivity.
Qed.

Lemma wellFormed_validateTarget `{Validator} (req : SubdomainsIndex.Request)
    (label rt target : string) :
  wellFormed req label rt target ->
  SubdomainsIndex.validateTarget (SubdomainsIndex.recordTypeOf (SubdomainsIndex.body req))
    (SubdomainsIndex.targetUrl (SubdomainsIndex.body req))
  = Js.Normal (Some (Validation.Valid target)).
Proof.
  intros (_ & Hrt & [[-> Hv] | [-> Hv]]); unfold SubdomainsIndex.validateTarget;
    rewrite Hrt; cbn [Js.strictEq].
  - change ("A" =? "A") with true. cbv iota. rewrite Hv. reflexivity.
  - change ("CNAME" =? "A") with false. change ("CNAME" =? "CNAME") with true.
    cbv iota. rewrite Hv. reflexivity.
Qed.

(** A well-formed create call that the rate limiter lets through: 409 when
    the label is taken, 201 with the new record otherwise. *)
Lemma handlePost_wellFormed `{Validator} `{PowerDNSEnv}
    (req : SubdomainsIndex.Request) (now : Z) (reply : Pdns.Reply) (w : World)
    (label rt target : string) :
  admitted (SubdomainsIndex.origin req) now w ->
  wellFormed req label rt target ->
  SubdomainsIndex.handlePost req now reply w =
    let rl := rateLimit (counted (SubdomainsIndex.origin req) now w) in
    if Firestore.empty (Firestore.whereName label (subdomains w))
    then
      let id := Firestore.autoId (subdomains w) in
      let d := createdDoc (SubdomainsIndex.user req) label target rt reply now in
      (Js.Normal (created id d),
       {| subdomains := <[id := d]> (subdomains w);
          rateLimit := rl;
          zone := Pdns.serve (upsertRequest rt label target) reply (zone w);
          trace := (trace w ++ [StoreQuery label; DnsPatch (upsertRequest rt label target);
                                StoreAdd id])%list |})
    else
      (Js.Normal (failed 409 "This subdomain is already taken"),
       {| subdomains := subdomains w;
          rateLimit := rl;
          zone := zone w;
          trace := (trace w ++ [StoreQuery label])%list |}).
Proof.
  intros Hadm Hwf.
  destruct (handlePost_validated req now reply w label target Hadm)
    as (rt' & rl & Hrt & _ & Hrl & Hrun).
  - apply Hwf.
  - eapply wellFormed_validateTarget; exact Hwf.
  - destruct Hwf as (_ & Hrt2 & _). rewrite Hrt2 in Hrt. injection Hrt as <-.
    rewrite Hrun, Hrl. reflexivity.
Qed.

(** C1. In the auto-approval flow, a create call whose label and target
    pass validation and whose label is free, and which the rate limiter
    lets through, succeeds even when the DNS Directory Client throws during
    the upsert: the answer is 201 with the new record, the record is in
    the store with [status = approved], [dnsCreated = false] and
    [dnsError] the message of the thrown error. *)
Theorem create_survives_dns_failure `{Validator} `{PowerDNSEnv}
    (req : SubdomainsIndex.Request) (now : Z) (reply : Pdns.Reply) (w : World)
    (label rt target msg : string) :
  admitted (SubdomainsIndex.origin req) now w ->
  wellFormed req label rt target ->
  ~ Spec.taken label (subdomains w) ->
  PowerDNS.failure reply = Some msg ->
  exists id d w',
    SubdomainsIndex.handlePost req now reply w = (Js.Normal (created id d), w')
    /\ subdomains w !! id = None
    /\ subdomains w' !! id = Some d
    /\ Firestore.subdomainName d = label
    /\ Firestore.targetUrl d = target
    /\ Firestore.recordType d = rt
    /\ Firestore.userId d = uid (SubdomainsIndex.user req)
    /\ Firestore.status d = Firestore.approved
    /\ Firestore.dnsCreated d = false
    /\ Firestore.dnsError d = Some msg.
Proof.
  intros Hadm Hwf Hfree Hfail.
  rewrite (handlePost_wellFormed req now reply w label rt target Hadm Hwf).
  apply whereName_empty in Hfree. rewrite Hfree. cbv zeta.
  do 3 eexists. split; [reflexivity |]. cbn [subdomains].
  split; [apply autoId_unused |]. split; [apply lookup_insert_eq |].
  unfold createdDoc, dnsFlags. rewrite Hfail. cbn. repeat split; reflexivity.
Qed.

Lemma validateTarget_accepted `{Validator} (rt : string) (t : Js.value) (target : string) :
  SubdomainsIndex.validateTarget (Js.Str rt) t = Js.Normal (Some (Validation.Valid target)) ->
  targetAccepted rt t target.
Proof.
  intros Hv. unfold targetAccepted.
  destruct (validateTarget_type _ _ _ Hv) as [[= ->] | [= ->]];
    unfold SubdomainsIndex.validateTarget in Hv; cbn [Js.strictEq] in Hv.
  - change ("A" =? "A") with true in Hv. cbv iota in Hv.
    left. split; [reflexivity |].
    destruct (Validation.validateIP t) as [[e | v] | e]; cbn [Js.bind] in Hv; congruence.
  - change ("CNAME" =? "A") with false in Hv. change ("CNAME" =? "CNAME") with true in Hv.
    cbv iota in Hv. right. split; [reflexivity |].
    destruct (Validation.validateURL t) as [[e | v] | e]; cbn [Js.bind] in Hv; congruence.
Qed.

(** A 201 comes only out of the one path through [handlePost]. *)
Lemma handlePost_created_inv `{Validator} `{PowerDNSEnv}
    (req : SubdomainsIndex.Request) (now : Z) (reply : Pdns.Reply) (w w' : World)
    (id : string) (d : Firestore.Doc) :
  SubdomainsIndex.handlePost req now reply w = (Js.Normal (created id d), w') ->
  exists label rt target,
    admitted (SubdomainsIndex.origin req) now w
    /\ wellFormed req label rt target
    /\ ~ Spec.taken label (subdomains w).
Proof.
  unfold SubdomainsIndex.handlePost, created, admitted. intros Hrun.
  destruct (checkRateLimit_frame
              (RateLimit.getClientIP (SubdomainsIndex.origin req)) 5
              (15 * 60 * 1000) now w) as (b & rl & Hrl).
  revert Hrun. run. rewrite Hrl. run. destruct b; run; [| discriminate].
  destruct (Validation.validateSubdomainName _) as [[e | label] | e] eqn:Hlabel;
    run; try discriminate.
  destruct (SubdomainsIndex.validateTarget _ _) as [[[e | target] |] | e] eqn:Htarget;
    run; try discriminate.
  unfold Db.queryName. run.
  destruct (Firestore.empty _) eqn:Hfree; run; [| discriminate].
  intros _.
  destruct (validateTarget_type _ _ _ Htarget) as [Hrt | Hrt].
  - exists label, "A", target. rewrite Hrt in Htarget.
    repeat split; auto using validateTarget_accepted. apply whereName_empty, Hfree.
  - exists label, "CNAME", target. rewrite Hrt in Htarget.
    repeat split; auto using validateTarget_accepted. apply whereName_empty, Hfree.
Qed.

(** * Updating the target *)

Lemma targetAccepted_types `{Validator} (rt : string) (t : Js.value) (target : string) :
  targetAccepted rt t target -> rt = "A" \/ rt = "CNAME".
Proof. intros [[-> _] | [-> _]]; auto. Qed.

Lemma targetAccepted_truthy `{Validator} (rt : string) (t : Js.value) (target : string) :
  targetAccepted rt t target -> Js.truthy t = true.
Proof.
  intros [[_ Hv] | [_ Hv]]; revert Hv;
    unfold Validation.validateIP, Validation.validateURL;
    destruct (Js.truthy t); cbn [negb orb]; congruence.
Qed.

Lemma targetAccepted_validate `{Validator} (rt : string) (t : Js.value) (target : string) :
  targetAccepted rt t target <->
  SubdomainsId.validateTarget rt t = Js.Normal (Validation.Valid target).
Proof.
  unfold targetAccepted, SubdomainsId.validateTarget. split.
  - intros [[-> Hv] | [-> Hv]]; exact Hv.
  - destruct (String.eqb rt "A") eqn:EA.
    + apply String.eqb_eq in EA. auto.
    + destruct (String.eqb rt "CNAME") eqn:EC; [| discriminate].
      apply String.eqb_eq in EC. auto.
Qed.

Lemma id_writeDns_run `{PowerDNSEnv} (rt label target : string) (reply : Pdns.Reply)
    (w : World) :
  rt = "A" \/ rt = "CNAME" ->
  SubdomainsId.writeDns rt label target reply w
  = (Js.Normal (dnsFlags reply), afterPatch (upsertRequest rt label target) reply w).
Proof.
  intros [-> | ->]; unfold SubdomainsId.writeDns, upsertRequest, dnsFlags,
    PowerDNS.createARecord, PowerDNS.createCNAMERecord;
    change ("A" =? "A") with true;
    change ("CNAME" =? "A") with false; change ("CNAME" =? "CNAME") with true;
    cbv iota; run; rewrite send_run;
    destruct (PowerDNS.failure reply); reflexivity.
Qed.

(** What [handlePatch] does for an actor who may mutate the record and a
    target that passes the validator of the record's type. *)
Lemma handlePatch_accepted `{Validator} `{PowerDNSEnv}
    (user : User) (id : string) (targetUrl : Js.value) (now : Z) (reply : Pdns.Reply)
    (w : World) (d : Firestore.Doc) (target : string) :
  subdomains w !! id = Some d ->
  Spec.canMutate user d = true ->
  targetAccepted (Firestore.recordType d) targetUrl target ->
  SubdomainsId.handlePatch user id targetUrl now reply w =
    let rq := upsertRequest (Firestore.recordType d) (Firestore.subdomainName d) target in
    let d' := patchedDoc d target reply now in
    (Js.Normal (updated id d'),
     {| subdomains := <[id := d']> (subdomains w);
        rateLimit := rateLimit w;
        zone := Pdns.serve rq reply (zone w);
        trace := (trace w ++ [StoreGet id; DnsPatch rq; StoreUpdate id; StoreGet id])%list |}).
Proof.
  intros Hd Hcan Hacc.
  unfold SubdomainsId.handlePatch, Db.get, Db.update. run.
  rewrite Hd. rewrite denied_canMutate, Hcan. run.
  rewrite (targetAccepted_truthy _ _ _ Hacc). run.
  rewrite (proj1 (targetAccepted_validate _ _ _) Hacc). run.
  rewrite id_writeDns_run by (eapply targetAccepted_types; exact Hacc).
  cbn [afterPatch subdomains rateLimit zone trace]. rewrite Hd. run.
  rewrite lookup_insert_eq. cbv zeta. unfold updated, patchedDoc.
  rewrite <- !app_assoc. reflexivity.
Qed.

(** A 200 with a record comes only out of the one path through
    [handlePatch]. *)
Lemma handlePatch_updated_inv `{Validator} `{PowerDNSEnv}
    (user : User) (id : string) (targetUrl : Js.value) (now : Z) (reply : Pdns.Reply)
    (w w' : World) (id' : string) (d' : Firestore.Doc) :
  SubdomainsId.handlePatch user id targetUrl now reply w = (Js.Normal (updated id' d'), w') ->
  exists d target,
    subdomains w !! id = Some d
    /\ Spec.canMutate user d = true
    /\ targetAccepted (Firestore.recordType d) targetUrl target.
Proof.
  unfold SubdomainsId.handlePatch, Db.get, updated. run.
  destruct (subdomains w !! id) as [d|] eqn:Hd; run; [| discriminate].
  rewrite denied_canMutate.
  destruct (Spec.canMutate user d) eqn:Hcan; run; [| discriminate].
  destruct (Js.truthy targetUrl) eqn:Ht; run; [| discriminate].
  destruct (SubdomainsId.validateTarget _ _) as [[e | target] | e] eqn:Hv;
    run; try discriminate.
  intros _. exists d, target. repeat split; auto.
  apply targetAccepted_validate. exact Hv.
Qed.

(** * Access policy *)







(** * The DNS flags of a persisted record *)

Lemma dnsFlags_consistent (reply : Pdns.Reply) :
  ((dnsFlags reply).1 = true <-> (dnsFlags reply).2 = None)
  /\ match PowerDNS.failure reply with
     | None => (dnsFlags reply).1 = true /\ (dnsFlags reply).2 = None
     | Some m => (dnsFlags reply).1 = false /\ (dnsFlags reply).2 = Some m
     end.
Proof.
  unfold dnsFlags. destruct (PowerDNS.failure reply); cbn; split; auto;
    split; congruence.
Qed.

(** C10. After a successful create (201) or a successful updateTarget
    (200) the record in the store has [dnsCreated = true] exactly when its
    [dnsError] is null: when the DNS write went through, [dnsCreated] is
    true and [dnsError] is null; when it failed, [dnsCreated] is false and
    [dnsError] is the message of the failure. *)
Theorem dnsCreated_iff_no_dnsError `{Validator} `{PowerDNSEnv}
    (now : Z) (reply : Pdns.Reply) (w w' : World) (id : string) (d : Firestore.Doc) :
  (exists req, SubdomainsIndex.handlePost req now reply w = (Js.Normal (created id d), w'))
  \/ (exists user targetUrl,
        SubdomainsId.handlePatch user id targetUrl now reply w
        = (Js.Normal (updated id d), w')) ->
  subdomains w' !! id = Some d
  /\ (Firestore.dnsCreated d = true <-> Firestore.dnsError d = None)
  /\ match PowerDNS.failure reply with
     | None => Firestore.dnsCreated d = true /\ Firestore.dnsError d = None
     | Some m => Firestore.dnsCreated d = false /\ Firestore.dnsError d = Some m
     end.
Proof.
  intros [(req & Hrun) | (user & targetUrl & Hrun)].
  - destruct (handlePost_created_inv _ _ _ _ _ _ _ Hrun)
      as (label & rt & target & Hadm & Hwf & Hfree).
    rewrite (handlePost_wellFormed req now reply w label rt target Hadm Hwf) in Hrun.
    apply whereName_empty in Hfree. rewrite Hfree in Hrun. cbv zeta in Hrun.
    unfold created in Hrun. injection Hrun as <- <- <-. cbn [subdomains].
    split; [apply lookup_insert_eq |]. apply dnsFlags_consistent.
  - destruct (handlePatch_updated_inv _ _ _ _ _ _ _ _ _ Hrun)
      as (d0 & target & Hd & Hcan & Hacc).
    rewrite (handlePatch_accepted user id targetUrl now reply w d0 target Hd Hcan Hacc)
      in Hrun.
    cbv zeta in Hrun. unfold updated in Hrun. injection Hrun as <- <-. cbn [subdomains].
    split; [apply lookup_insert_eq |]. apply dnsFlags_consistent.
Qed.

(** * Availability *)

Lemma check_run (name : Js.value) (w : World) :
  SubdomainsCheck.handler "GET" name w =
  if negb (Js.truthy name)
  then (Js.Normal (failed 400 "Subdomain name is required"), w)
  else match Validation.validateSubdomainName name with
       | Js.Normal (Validation.Invalid reason) =>
           (Js.Normal (mkResponse 200 (AvailabilityJson false (Some reason))), w)
       | Js.Normal (Validation.Valid label) =>
           let available := Firestore.empty (Firestore.whereName label (subdomains w)) in
           (Js.Normal (mkResponse 200
                         (AvailabilityJson available
                            (if available then None
                             else Some "This subdomain is already taken"))),
            logged w [StoreQuery label])
       | Js.Throw e => (Js.Normal (failed 500 "Failed to check availability"), w)
       end.
Proof.
  unfold SubdomainsCheck.handler, Db.queryName. change ("GET" =? "GET") with true.
  cbn [negb]. run.
  destruct (Js.truthy name); cbn [negb]; [| reflexivity].
  destruct (Validation.validateSubdomainName name) as [[reason | label] | e];
    reflexivity.
Qed.

(** C8, as the code has it.  For a name that is present (not missing and
    not the empty string) and fails the Name Validator, the answer is
    [available = false] with the validator's reason, and the store is not
    consulted.  For a valid name the store is queried once for the
    normalized label, and [available] is true exactly when no record holds
    it: false while a record with the label is in the store, true again
    once the only record holding it has been deleted.  A missing or empty
    name is answered with 400 "Subdomain name is required". *)
Theorem checkAvailability_amended `{PowerDNSEnv}
    (name : Js.value) (w : World) :
  (Js.truthy name = false ->
     SubdomainsCheck.handler "GET" name w
     = (Js.Normal (failed 400 "Subdomain name is required"), w))
  /\ (Js.truthy name = true ->
      exists r, Validation.validateSubdomainName name = Js.Normal r /\
        match r with
        | Validation.Invalid reason =>
            SubdomainsCheck.handler "GET" name w
            = (Js.Normal (mkResponse 200 (AvailabilityJson false (Some reason))), w)
        | Validation.Valid label =>
            exists available,
              SubdomainsCheck.handler "GET" name w
              = (Js.Normal (mkResponse 200
                              (AvailabilityJson available
                                 (if available then None
                                  else Some "This subdomain is already taken"))),
                 logged w [StoreQuery label])
              /\ (available = true <-> ~ Spec.taken label (subdomains w))
              /\ (forall id d, subdomains w !! id = Some d ->
                    Firestore.subdomainName d = label -> available = false)
              /\ (forall user id d reply w',
                    subdomains w !! id = Some d ->
                    (forall j dj, subdomains w !! j = Some dj ->
                       Firestore.subdomainName dj = label -> j = id) ->
                    SubdomainsId.handleDelete user id reply w
                      = (Js.Normal (mkResponse 200 DeletedJson), w') ->
                    SubdomainsCheck.handler "GET" name w'
                    = (Js.Normal (mkResponse 200 (AvailabilityJson true None)),
                       logged w' [StoreQuery label]))
        end).
Proof.
  split.
  - intros Ht. rewrite check_run, Ht. reflexivity.
  - intros Ht.
    destruct (validateSubdomainName_returns name) as (r & Hr).
    exists r. split; [exact Hr |].
    destruct r as [reason | label].
    + rewrite check_run, Ht, Hr. reflexivity.
    + eexists. split; [rewrite check_run, Ht, Hr; reflexivity |].
      split; [apply whereName_empty |]. split.
      * intros id d Hd Hl. apply whereName_taken. exists id, d. auto.
      * intros user id d reply w' Hd Honly Hdel.
        rewrite check_run, Ht, Hr. cbn [negb]. cbv zeta.
        assert (Hfree : ~ Spec.taken label (subdomains w')).
        { pose proof (handleDelete_deleted_inv _ _ _ _ _ Hdel) as Hw'.
          rewrite Hw'. intros (j & dj & Hj & Hl).
          destruct (decide (j = id)) as [-> | Hne].
          - rewrite lookup_delete_eq in Hj. discriminate.
          - rewrite lookup_delete_ne in Hj by congruence. apply Hne. eauto. }
        apply whereName_empty in Hfree. rewrite Hfree. reflexivity.
Qed.

(** * The DNS Directory Client *)

Lemma createARecord_run `{PowerDNSEnv} (label ip : string) (reply : Pdns.Reply) (w : World) :
  PowerDNS.createARecord label ip reply w =
  (match PowerDNS.failure reply with
   | None => Js.Normal true
   | Some m => Js.Throw (Js.mkError m)
   end, afterPatch (PowerDNS.replaceA label ip) reply w).
Proof. apply send_run. Qed.

Lemma serve_replaceA `{PowerDNSEnv} (label ip : string) (reply : Pdns.Reply) (z : Pdns.Zone) :
  Pdns.serve (PowerDNS.replaceA label ip) reply z =
  if Pdns.accepted reply
  then <[(label +:+ "." +:+ POWERDNS_ZONE, "A") := (Some 3600%N, [Pdns.mkRecord ip false])]> z
  else z.
Proof. unfold Pdns.serve. destruct (Pdns.accepted reply); reflexivity. Qed.

(** C9. [upsertA] replaces: once a call for a label has been accepted by
    the directory, the directory holds exactly that address for the name,
    and a second call with the same address leaves the directory as the
    first call left it, whatever the second reply; an accepted call with
    another address overwrites the first, as if the first had not been
    made. *)
Theorem upsertA_idempotent `{PowerDNSEnv}
    (label ip ip' : string) (reply1 reply2 : Pdns.Reply) (w : World) :
  Pdns.accepted reply1 = true ->
  let fqdn := label +:+ "." +:+ POWERDNS_ZONE in
  let once := PowerDNS.createARecord label ip reply1 w in
  let twice := PowerDNS.createARecord label ip reply2 once.2 in
  let other := PowerDNS.createARecord label ip' reply2 once.2 in
  once.1 = Js.Normal true
  /\ zone once.2 !! (fqdn, "A") = Some (Some 3600%N, [Pdns.mkRecord ip false])
  /\ zone twice.2 = zone once.2
  /\ (Pdns.accepted reply2 = true ->
      zone other.2 !! (fqdn, "A") = Some (Some 3600%N, [Pdns.mkRecord ip' false])
      /\ zone other.2 = zone (PowerDNS.createARecord label ip' reply2 w).2).
Proof.
  intros Hok1. cbv zeta. rewrite !createARecord_run. cbn [fst snd afterPatch zone].
  rewrite !serve_replaceA, Hok1.
  apply failure_accepted in Hok1. rewrite Hok1.
  split; [reflexivity |]. split; [apply lookup_insert_eq |]. split.
  - destruct (Pdns.accepted reply2); [apply insert_insert_eq | reflexivity].
  - intros ->. split; [apply lookup_insert_eq | apply insert_insert_eq].
Qed.

(** * The CNAME target *)

(** [validateURL] checks the target with the scheme and the slash taken
    off and returns it with both still on. *)
Lemma validateURL_value `{Validator} (s : string) :
  s <> "" ->
  isFQDN (Validation.stripSlash (Validation.stripScheme (Js.trim s))) = true ->
  Validation.validateURL (Js.Str s) = Js.Normal (Validation.Valid (Js.trim s)).
Proof.
  intros Hs Hfqdn. unfold Validation.validateURL. cbn [Js.truthy Js.typeof].
  change ("string" =? "string") with true.
  destruct (String.eqb_spec s ""); [congruence |]. cbn [negb orb Js.call_trim Js.bind].
  rewrite Hfqdn. reflexivity.
Qed.

(** C4 at a failing input.  A CNAME create for the target
    "https://example.com/" passes validation, since "example.com" is a
    domain name, but the record is persisted with the target
    "https://example.com/" and the directory receives the content
    "https://example.com/.": neither is the bare name "example.com". *)
Theorem cname_target_keeps_scheme :
  let run := @SubdomainsIndex.handlePost validator_js env_example
               (post owner1 "blog" "CNAME" "https://example.com/") 1000 reply_ok world0 in
  Validation.stripSlash (Validation.stripScheme "https://example.com/") = "example.com"
  /\ exists id d,
       run.1 = Js.Normal (created id d)
       /\ subdomains run.2 !! id = Some d
       /\ Firestore.targetUrl d = "https://example.com/"
       /\ zone run.2 !! ("blog.example.org.", "CNAME")
          = Some (Some 3600%N, [Pdns.mkRecord "https://example.com/." false]).
Proof.
  cbv zeta. split; [reflexivity |].
  do 2 eexists. split; [vm_compute; reflexivity |].
  repeat split; vm_compute; reflexivity.
Qed.

(** * Label uniqueness *)

Ltac no_delete :=
  let j := fresh "j" in
  let Hin := fresh "Hin" in
  intros j Hin; cbn [In app] in Hin;
  repeat match goal with
         | H : _ \/ _ |- _ => destruct H
         end; solve [discriminate | contradiction].

Lemma handlePost_effect `{Validator} `{PowerDNSEnv}
    (req : SubdomainsIndex.Request) (now : Z) (reply : Pdns.Reply) (w w' : World)
    (r : Js.completion Response) :
  SubdomainsIndex.handlePost req now reply w = (r, w') ->
  exists evs, trace w' = (trace w ++ evs)%list /\ StoreEffect w w' evs.
Proof.
  intros Hrun.
  destruct (checkRateLimit_frame
              (RateLimit.getClientIP (SubdomainsIndex.origin req)) 5
              (15 * 60 * 1000) now w) as (b & rl & Hrl).
  assert (Hquiet : forall r0, (r0, mkWorld (subdomains w) rl (zone w) (trace w)) = (r, w') ->
            exists evs, trace w' = (trace w ++ evs)%list /\ StoreEffect w w' evs).
  { intros r0 [= _ <-]. exists []. cbn [trace]. rewrite app_nil_r.
    split; [reflexivity |]. apply Untouched; [reflexivity | no_delete]. }
  destruct b.
  2:{ revert Hrun. unfold SubdomainsIndex.handlePost. run. rewrite Hrl. run. apply Hquiet. }
  destruct (Validation.validateSubdomainName
              (SubdomainsIndex.subdomainName (SubdomainsIndex.body req)))
    as [[e | label] | e] eqn:Hlabel.
  1,3: revert Hrun; unfold SubdomainsIndex.handlePost; run; rewrite Hrl; run;
    rewrite Hlabel; run; apply Hquiet.
  destruct (SubdomainsIndex.validateTarget
              (SubdomainsIndex.recordTypeOf (SubdomainsIndex.body req))
              (SubdomainsIndex.targetUrl (SubdomainsIndex.body req)))
    as [[[e | target] |] | e] eqn:Htarget.
  1,3,4: revert Hrun; unfold SubdomainsIndex.handlePost; run; rewrite Hrl; run;
    rewrite Hlabel; run; rewrite Htarget; run; apply Hquiet.
  assert (Hadm : admitted (SubdomainsIndex.origin req) now w)
    by (unfold admitted; rewrite Hrl; reflexivity).
  destruct (handlePost_validated req now reply w label target Hadm Hlabel Htarget)
    as (rt & rl' & _ & _ & _ & Hrun').
  rewrite Hrun' in Hrun. clear Hrun'.
  destruct (Firestore.empty (Firestore.whereName label (subdomains w))) eqn:Hfree;
    cbv zeta in Hrun; injection Hrun as <- <-; cbn [trace subdomains].
  - eexists. split; [reflexivity |].
    eapply Added; cbn [subdomains]; [apply autoId_unused | | reflexivity | no_delete].
    apply whereName_empty. exact Hfree.
  - eexists. split; [reflexivity |]. apply Untouched; [reflexivity | no_delete].
Qed.

Lemma handlePatch_effect `{Validator} `{PowerDNSEnv}
    (user : User) (id : string) (targetUrl : Js.value) (now : Z) (reply : Pdns.Reply)
    (w w' : World) (r : Js.completion Response) :
  SubdomainsId.handlePatch user id targetUrl now reply w = (r, w') ->
  exists evs, trace w' = (trace w ++ evs)%list /\ StoreEffect w w' evs.
Proof.
  intros Hrun.
  assert (Hquiet : forall r0, (r0, logged w [StoreGet id]) = (r, w') ->
            exists evs, trace w' = (trace w ++ evs)%list /\ StoreEffect w w' evs).
  { intros r0 [= _ <-]. exists [StoreGet id].
    split; [reflexivity |]. apply Untouched; [reflexivity | no_delete]. }
  destruct (subdomains w !! id) as [d|] eqn:Hd.
  2:{ revert Hrun. unfold SubdomainsId.handlePatch, Db.get. run. rewrite Hd. apply Hquiet. }
  destruct (Spec.canMutate user d) eqn:Hcan.
  2:{ revert Hrun. unfold SubdomainsId.handlePatch, Db.get. run.
      rewrite Hd, denied_canMutate, Hcan. apply Hquiet. }
  destruct (Js.truthy targetUrl) eqn:Ht.
  2:{ revert Hrun. unfold SubdomainsId.handlePatch, Db.get. run.
      rewrite Hd, denied_canMutate, Hcan, Ht. apply Hquiet. }
  destruct (SubdomainsId.validateTarget (Firestore.recordType d) targetUrl)
    as [[e | target] | e] eqn:Hv.
  1,3: revert Hrun; unfold SubdomainsId.handlePatch, Db.get; run;
    rewrite Hd, denied_canMutate, Hcan, Ht; run; rewrite Hv; run; apply Hquiet.
  apply targetAccepted_validate in Hv.
  rewrite (handlePatch_accepted user id targetUrl now reply w d target Hd Hcan Hv) in Hrun.
  cbv zeta in Hrun. injection Hrun as <- <-. cbn [trace subdomains].
  eexists. split; [reflexivity |].
  eapply Patched; [exact Hd | reflexivity | no_delete].
Qed.

Lemma handleDelete_effect `{PowerDNSEnv}
    (user : User) (id : string) (reply : Pdns.Reply)
    (w w' : World) (r : Js.completion Response) :
  SubdomainsId.handleDelete user id reply w = (r, w') ->
  exists evs, trace w' = (trace w ++ evs)%list /\ StoreEffect w w' evs.
Proof.
  intros Hrun.
  assert (Hquiet : forall r0, (r0, logged w [StoreGet id]) = (r, w') ->
            exists evs, trace w' = (trace w ++ evs)%list /\ StoreEffect w w' evs).
  { intros r0 [= _ <-]. exists [StoreGet id].
    split; [reflexivity |]. apply Untouched; [reflexivity | no_delete]. }
  destruct (subdomains w !! id) as [d|] eqn:Hd.
  2:{ revert Hrun. unfold SubdomainsId.handleDelete, Db.get. run. rewrite Hd. apply Hquiet. }
  destruct (Spec.canMutate user d) eqn:Hcan.
  2:{ revert Hrun. unfold SubdomainsId.handleDelete, Db.get. run.
      rewrite Hd, denied_canMutate, Hcan. apply Hquiet. }
  destruct (delete_of_authorized user id reply w d Hd Hcan) as (w1 & Hrun1 & Hs & _ & Htr).
  rewrite Hrun1 in Hrun. injection Hrun as <- <-.
  eexists. split; [exact Htr |].
  apply Removed with (id := id); [exact Hs |].
  apply in_or_app. right. apply in_or_app. right. left. reflexivity.
Qed.

Lemma call_effect `{Validator} `{PowerDNSEnv}
    (c : Call) (now : Z) (reply : Pdns.Reply) (w w' : World) (r : Js.completion Response) :
  call c now reply w = (r, w') ->
  exists evs, trace w' = (trace w ++ evs)%list /\ StoreEffect w w' evs.
Proof.
  destruct c as [req | user id | user id targetUrl | user id | method name]; cbn [call].
  - apply handlePost_effect.
  - unfold SubdomainsId.handleGet, Db.get. run.
    destruct (subdomains w !! id) as [d|]; [destruct (SubdomainsId.denied user d) |];
      intros [= _ <-]; exists [StoreGet id];
      (split; [reflexivity | apply Untouched; [reflexivity | no_delete]]).
  - apply handlePatch_effect.
  - apply handleDelete_effect.
  - destruct (String.eqb_spec method "GET") as [-> | Hm].
    + rewrite check_run.
      destruct (Js.truthy name); cbn [negb].
      * destruct (Validation.validateSubdomainName name) as [[e | label] | e];
          intros [= _ <-];
          try (exists []; cbn [trace]; rewrite app_nil_r;
               split; [reflexivity | apply Untouched; [reflexivity | no_delete]]).
        exists [StoreQuery label].
        split; [reflexivity | apply Untouched; [reflexivity | no_delete]].
      * intros [= _ <-]. exists []. cbn [trace]; rewrite app_nil_r.
        split; [reflexivity | apply Untouched; [reflexivity | no_delete]].
    + unfold SubdomainsCheck.handler.
      destruct (String.eqb_spec method "GET"); [congruence |]. cbn [negb]. run.
      intros [= _ <-]. exists []. rewrite app_nil_r.
      split; [reflexivity | apply Untouched; [reflexivity | no_delete]].
Qed.

(** A call that does not delete the holder of a label leaves it the only
    holder. *)
Lemma holds_effect (id label : string) (w w' : World) (evs : list Event) :
  StoreEffect w w' evs ->
  ~ In (StoreDelete id) evs ->
  holds id label (subdomains w) -> holds id label (subdomains w').
Proof.
  intros Heff Hnd ((d & Hd & Hl) & Honly).
  destruct Heff as [Hs _ | j dj Hj Hfree Hs _ | j dj p Hj Hs _ | j Hs Hin]; rewrite Hs.
  - split; eauto.
  - assert (Hne : j <> id) by congruence. split.
    + exists d. rewrite lookup_insert_ne by exact Hne. auto.
    + intros k dk Hk Hkl. destruct (decide (j = k)) as [<- | Hjk].
      * rewrite lookup_insert_eq in Hk. injection Hk as <-.
        exfalso. apply Hfree. exists id, d. split; congruence.
      * rewrite lookup_insert_ne in Hk by exact Hjk. eauto.
  - split.
    + destruct (decide (j = id)) as [-> | Hne].
      * rewrite lookup_insert_eq. eexists. split; [reflexivity |].
        cbn. congruence.
      * exists d. rewrite lookup_insert_ne by exact Hne. auto.
    + intros k dk Hk Hkl. destruct (decide (j = k)) as [<- | Hjk].
      * rewrite lookup_insert_eq in Hk. injection Hk as <-.
        apply (Honly j dj Hj). exact Hkl.
      * rewrite lookup_insert_ne in Hk by exact Hjk. eauto.
  - assert (Hne : j <> id) by (intros ->; contradiction). split.
    + exists d. rewrite lookup_delete_ne by exact Hne. auto.
    + intros k dk Hk Hkl. destruct (decide (j = k)) as [<- | Hjk].
      * rewrite lookup_delete_eq in Hk. discriminate.
      * rewrite lookup_delete_ne in Hk by exact Hjk. eauto.
Qed.

Lemma holds_history `{Validator} `{PowerDNSEnv}
    (id label : string) (w w' : World) (evs : list Event) :
  history w evs w' ->
  ~ In (StoreDelete id) evs ->
  holds id label (subdomains w) -> holds id label (subdomains w').
Proof.
  induction 1 as [w | w w1 w2 evs evs' c now reply r Hhist IH Hcall Htrace];
    intros Hnd Hholds; [exact Hholds |].
  destruct (call_effect c now reply w1 w2 r Hcall) as (evs2 & Htrace2 & Heff).
  assert (evs2 = evs') by (rewrite Htrace2 in Htrace; eapply app_inv_head; exact Htrace).
  subst evs2.
  eapply holds_effect; [exact Heff | | apply IH; [| exact Hholds]];
    intros Hin; apply Hnd; apply in_or_app; auto.
Qed.

(** A successful create makes the new record the only holder of its
    label. *)
Lemma created_holds `{Validator} `{PowerDNSEnv}
    (req : SubdomainsIndex.Request) (now : Z) (reply : Pdns.Reply) (w w' : World)
    (id : string) (d : Firestore.Doc) :
  SubdomainsIndex.handlePost req now reply w = (Js.Normal (created id d), w') ->
  holds id (Firestore.subdomainName d) (subdomains w').
Proof.
  intros Hrun.
  destruct (handlePost_created_inv _ _ _ _ _ _ _ Hrun)
    as (label & rt & target & Hadm & Hwf & Hfree).
  rewrite (handlePost_wellFormed req now reply w label rt target Hadm Hwf) in Hrun.
  pose proof Hfree as Hempty. apply whereName_empty in Hempty.
  rewrite Hempty in Hrun. cbv zeta in Hrun.
  unfold created in Hrun. injection Hrun as <- <- <-. cbn [subdomains].
  split.
  - eexists. split; [apply lookup_insert_eq | reflexivity].
  - intros j dj Hj Hl.
    destruct (decide (Firestore.autoId (subdomains w) = j)) as [E | Hne]; [auto |].
    rewrite lookup_insert_ne in Hj by exact Hne.
    exfalso. apply Hfree. exists j, dj. auto.
Qed.

(** A create call for a label that is taken: never a success, and neither
    the store nor the directory is written. *)
Lemma handlePost_taken `{Validator} `{PowerDNSEnv}
    (req : SubdomainsIndex.Request) (now : Z) (reply : Pdns.Reply) (w : World)
    (label : string) :
  Spec.taken label (subdomains w) ->
  Validation.validateSubdomainName (SubdomainsIndex.subdomainName (SubdomainsIndex.body req))
    = Js.Normal (Validation.Valid label) ->
  exists r w' evs,
    SubdomainsIndex.handlePost req now reply w = (Js.Normal r, w')
    /\ code r <> 201%N
    /\ subdomains w' = subdomains w
    /\ zone w' = zone w
    /\ trace w' = (trace w ++ evs)%list
    /\ (evs = [] \/ evs = [StoreQuery label]).
Proof.
  intros Htaken Hlabel.
  destruct (checkRateLimit_frame
              (RateLimit.getClientIP (SubdomainsIndex.origin req)) 5
              (15 * 60 * 1000) now w) as (b & rl & Hrl).
  destruct b.
  2:{ unfold SubdomainsIndex.handlePost. run. rewrite Hrl. run.
      do 2 eexists. exists []. split; [reflexivity |]. cbn. rewrite app_nil_r.
      repeat split; auto; try lia; discriminate. }
  destruct (SubdomainsIndex.validateTarget
              (SubdomainsIndex.recordTypeOf (SubdomainsIndex.body req))
              (SubdomainsIndex.targetUrl (SubdomainsIndex.body req)))
    as [[[e | target] |] | e] eqn:Htarget.
  1,3,4: unfold SubdomainsIndex.handlePost; run; rewrite Hrl; run;
    rewrite Hlabel; run; rewrite Htarget; run;
    do 2 eexists; exists []; (split; [reflexivity |]); cbn; rewrite app_nil_r;
    repeat split; auto; try lia; discriminate.
  assert (Hadm : admitted (SubdomainsIndex.origin req) now w)
    by (unfold admitted; rewrite Hrl; reflexivity).
  destruct (handlePost_validated req now reply w label target Hadm Hlabel Htarget)
    as (rt & rl' & _ & _ & _ & Hrun).
  rewrite Hrun. apply whereName_taken in Htaken. rewrite Htaken.
  do 2 eexists. exists [StoreQuery label]. split; [reflexivity |]. cbn.
  repeat split; auto; try lia; discriminate.
Qed.

(** C2, as the code has it.  Let a first create call have succeeded, and
    let its record not have been deleted by any of the calls made since.
    Then the record is still the holder of its label, and a second create
    call with the same normalized label is never a success: it adds no
    record, sends nothing to the DNS Directory and leaves the store,
    hence the first record and its target, as they were.  When the second
    call is let through by the rate limiter and its record type and
    target pass validation, it fails with 409 "This subdomain is already
    taken".  Once the record has been deleted, such a call for the label
    succeeds again. *)
Theorem label_taken_amended `{Validator} `{PowerDNSEnv}
    (req1 : SubdomainsIndex.Request) (now1 : Z) (reply1 : Pdns.Reply) (w0 w1 : World)
    (id : string) (d : Firestore.Doc) (evs : list Event) (w : World)
    (req2 : SubdomainsIndex.Request) (now2 : Z) (reply2 : Pdns.Reply) :
  SubdomainsIndex.handlePost req1 now1 reply1 w0 = (Js.Normal (created id d), w1) ->
  history w1 evs w ->
  ~ In (StoreDelete id) evs ->
  Validation.validateSubdomainName (SubdomainsIndex.subdomainName (SubdomainsIndex.body req2))
    = Js.Normal (Validation.Valid (Firestore.subdomainName d)) ->
  let label := Firestore.subdomainName d in
  (exists d1, subdomains w !! id = Some d1 /\ Firestore.subdomainName d1 = label)
  /\ (exists r2 w2 evs2,
        SubdomainsIndex.handlePost req2 now2 reply2 w = (Js.Normal r2, w2)
        /\ code r2 <> 201%N
        /\ subdomains w2 = subdomains w
        /\ zone w2 = zone w
        /\ trace w2 = (trace w ++ evs2)%list
        /\ (evs2 = [] \/ evs2 = [StoreQuery label]))
  /\ (forall rt2 target2,
        admitted (SubdomainsIndex.origin req2) now2 w ->
        wellFormed req2 label rt2 target2 ->
        (SubdomainsIndex.handlePost req2 now2 reply2 w).1
        = Js.Normal (failed 409 "This subdomain is already taken"))
  /\ (forall user reply3 w3 req3 now3 reply4 rt3 target3,
        SubdomainsId.handleDelete user id reply3 w
          = (Js.Normal (mkResponse 200 DeletedJson), w3) ->
        admitted (SubdomainsIndex.origin req3) now3 w3 ->
        wellFormed req3 label rt3 target3 ->
        exists id3 d3 w4,
          SubdomainsIndex.handlePost req3 now3 reply4 w3 = (Js.Normal (created id3 d3), w4)
          /\ Firestore.subdomainName d3 = label
          /\ subdomains w4 !! id3 = Some d3).
Proof.
  intros Hfirst Hhist Hnd Hsame. cbv zeta.
  pose proof (holds_history id _ w1 w evs Hhist Hnd (created_holds _ _ _ _ _ _ _ Hfirst))
    as Hholds.
  destruct Hholds as ((d1 & Hd1 & Hl1) & Honly).
  assert (Htaken : Spec.taken (Firestore.subdomainName d) (subdomains w))
    by (exists id, d1; auto).
  split; [eauto |]. split; [apply handlePost_taken; assumption |]. split.
  - intros rt2 target2 Hadm Hwf.
    rewrite (handlePost_wellFormed req2 now2 reply2 w _ rt2 target2 Hadm Hwf).
    apply whereName_taken in Htaken. rewrite Htaken. reflexivity.
  - intros user reply3 w3 req3 now3 reply4 rt3 target3 Hdel Hadm Hwf.
    rewrite (handlePost_wellFormed req3 now3 reply4 w3 _ rt3 target3 Hadm Hwf).
    assert (Hfree : ~ Spec.taken (Firestore.subdomainName d) (subdomains w3)).
    { rewrite (handleDelete_deleted_inv _ _ _ _ _ Hdel). intros (j & dj & Hj & Hl).
      destruct (decide (j = id)) as [-> | Hne].
      - rewrite lookup_delete_eq in Hj. discriminate.
      - rewrite lookup_delete_ne in Hj by congruence. apply Hne. eauto. }
    apply whereName_empty in Hfree. rewrite Hfree. cbv zeta.
    do 3 eexists. split; [reflexivity |]. cbn [subdomains].
    split; [reflexivity | apply lookup_insert_eq].
Qed.

(** * What never changes *)

Lemma sameIdentity_refl (d : Firestore.Doc) : sameIdentity d d.
Proof. repeat split. Qed.

Lemma sameIdentity_merge (p : Firestore.Patch) (d : Firestore.Doc) :
  sameIdentity d (Firestore.merge p d).
Proof. repeat split. Qed.

Lemma sameIdentity_trans (d1 d2 d3 : Firestore.Doc) :
  sameIdentity d1 d2 -> sameIdentity d2 d3 -> sameIdentity d1 d3.
Proof.
  unfold sameIdentity. intros (?&?&?&?&?&?&?) (?&?&?&?&?&?&?).
  repeat split; congruence.
Qed.

Lemma identity_effect (id : string) (d : Firestore.Doc) (w w' : World) (evs : list Event) :
  StoreEffect w w' evs ->
  ~ In (StoreDelete id) evs ->
  subdomains w !! id = Some d ->
  exists d', subdomains w' !! id = Some d' /\ sameIdentity d d'.
Proof.
  intros Heff Hnd Hd.
  destruct Heff as [Hs _ | j dj Hj Hfree Hs _ | j dj p Hj Hs _ | j Hs Hin]; rewrite Hs.
  - eauto using sameIdentity_refl.
  - rewrite lookup_insert_ne by congruence. eauto using sameIdentity_refl.
  - destruct (decide (j = id)) as [-> | Hne].
    + rewrite lookup_insert_eq. rewrite Hj in Hd. injection Hd as <-.
      eauto using sameIdentity_merge.
    + rewrite lookup_insert_ne by exact Hne. eauto using sameIdentity_refl.
  - assert (Hne : j <> id) by (intros ->; contradiction).
    rewrite lookup_delete_ne by exact Hne. eauto using sameIdentity_refl.
Qed.

Lemma identity_history `{Validator} `{PowerDNSEnv}
    (id : string) (d0 d : Firestore.Doc) (w w' : World) (evs : list Event) :
  history w evs w' ->
  ~ In (StoreDelete id) evs ->
  subdomains w !! id = Some d ->
  sameIdentity d0 d ->
  exists d', subdomains w' !! id = Some d' /\ sameIdentity d0 d'.
Proof.
  induction 1 as [w | w w1 w2 evs evs' c now reply r Hhist IH Hcall Htrace];
    intros Hnd Hd Hsame; [eauto |].
  destruct (call_effect c now reply w1 w2 r Hcall) as (evs2 & Htrace2 & Heff).
  assert (evs2 = evs') by (rewrite Htrace2 in Htrace; eapply app_inv_head; exact Htrace).
  subst evs2.
  destruct IH as (d1 & Hd1 & Hsame1); [| exact Hd | exact Hsame |].
  { intros Hin. apply Hnd. apply in_or_app. auto. }
  destruct (identity_effect id d1 w1 w2 evs' Heff) as (d2 & Hd2 & Hsame2);
    [| exact Hd1 |].
  { intros Hin. apply Hnd. apply in_or_app. auto. }
  eauto using sameIdentity_trans.
Qed.



(** C6. For a record of any status, an actor who may mutate it and a new
    target that passes the validator of the record's type, [updateTarget]
    succeeds whatever the DNS Directory replies.  The record stays under
    its id; its label, owner, record type, status, [createdAt] and
    [approvedAt] are what they were; [target] is the validated target,
    [dnsCreated] and [dnsError] report the outcome of the write, and
    [updatedAt] is the time of the call.  No other record changes.  As
    long as the record is not deleted, no later call of the API changes
    the label, the owner, the record type, the status, [createdAt] or
    [approvedAt] either. *)
Theorem updateTarget_frame `{Validator} `{PowerDNSEnv}
    (user : User) (id : string) (targetUrl : Js.value) (now : Z) (reply : Pdns.Reply)
    (w : World) (d : Firestore.Doc) (target : string) :
  subdomains w !! id = Some d ->
  Spec.canMutate user d = true ->
  targetAccepted (Firestore.recordType d) targetUrl target ->
  exists d' w',
    SubdomainsId.handlePatch user id targetUrl now reply w = (Js.Normal (updated id d'), w')
    /\ subdomains w' !! id = Some d'
    /\ (forall j, j <> id -> subdomains w' !! j = subdomains w !! j)
    /\ Firestore.subdomainName d' = Firestore.subdomainName d
    /\ Firestore.userEmail d' = Firestore.userEmail d
    /\ Firestore.userId d' = Firestore.userId d
    /\ Firestore.recordType d' = Firestore.recordType d
    /\ Firestore.status d' = Firestore.status d
    /\ Firestore.createdAt d' = Firestore.createdAt d
    /\ Firestore.approvedAt d' = Firestore.approvedAt d
    /\ Firestore.targetUrl d' = target
    /\ (Firestore.dnsCreated d', Firestore.dnsError d') = dnsFlags reply
    /\ Firestore.updatedAt d' = Some now
    /\ (forall evs w2,
          history w' evs w2 -> ~ In (StoreDelete id) evs ->
          exists d2, subdomains w2 !! id = Some d2 /\ sameIdentity d d2).
Proof.
  intros Hd Hcan Hacc.
  rewrite (handlePatch_accepted user id targetUrl now reply w d target Hd Hcan Hacc).
  cbv zeta. do 2 eexists. split; [reflexivity |]. cbn [subdomains].
  split; [apply lookup_insert_eq |].
  split; [intros j Hj; apply lookup_insert_ne; congruence |].
  unfold patchedDoc, Firestore.merge. cbn.
  repeat split; try reflexivity; [destruct (dnsFlags reply); reflexivity |].
  intros evs w2 Hhist Hnd.
  eapply identity_history; [exact Hhist | exact Hnd | | ].
  - cbn [subdomains]. apply lookup_insert_eq.
  - repeat split.
Qed.

(** * The statements at concrete requests *)

Lemma world0_free (label : string) : ~ Spec.taken label (subdomains world0).
Proof.
  intros (id & d & Hd & _). unfold world0 in Hd. cbn [subdomains] in Hd.
  rewrite lookup_empty in Hd. discriminate.
Qed.

Lemma create_survives_dns_failure_witness :
  exists id d w',
    @SubdomainsIndex.handlePost validator_js env_example
      (post owner1 "alice" "A" "10.0.0.5") 1000 reply_down world0
    = (Js.Normal (created id d), w')
    /\ subdomains world0 !! id = None
    /\ subdomains w' !! id = Some d
    /\ Firestore.subdomainName d = "alice"
    /\ Firestore.targetUrl d = "10.0.0.5"
    /\ Firestore.recordType d = "A"
    /\ Firestore.userId d = "owner1"
    /\ Firestore.status d = Firestore.approved
    /\ Firestore.dnsCreated d = false
    /\ Firestore.dnsError d = Some "fetch failed".
Proof.
  apply (@create_survives_dns_failure validator_js env_example
           (post owner1 "alice" "A" "10.0.0.5") 1000 reply_down world0
           "alice" "A" "10.0.0.5" "fetch failed").
  - vm_compute. reflexivity.
  - split; [reflexivity |]. split; [reflexivity |]. left. split; reflexivity.
  - apply world0_free.
  - reflexivity.
Defined.

Lemma first_create_alice :
  @SubdomainsIndex.handlePost validator_js env_example
    (post owner1 "alice" "A" "10.0.0.5") 1000 reply_ok world0
  = (Js.Normal (created "0" alice_record), world1).
Proof. vm_compute. reflexivity. Qed.

Lemma world1_alice : subdomains world1 !! "0" = Some alice_record.
Proof. vm_compute. reflexivity. Qed.

(** C2 fails as stated: the second create call has the same normalized
    label as the first, which succeeded and was not deleted, but its target
    is not an IPv4 address, and it is rejected with 400 "Invalid IPv4
    address", not with LabelTaken. *)
Lemma second_create_invalid_target :
  let first := @SubdomainsIndex.handlePost validator_js env_example
                 (post owner1 "alice" "A" "10.0.0.5") 1000 reply_ok world0 in
  let second := @SubdomainsIndex.handlePost validator_js env_example
                  (post owner2 " Alice " "A" "10.0.0.999") 2000 reply_ok first.2 in
  first.1 = Js.Normal (created "0" alice_record)
  /\ subdomains first.2 !! "0" = Some alice_record
  /\ Validation.validateSubdomainName (Js.Str " Alice ")
     = Js.Normal (Validation.Valid (Firestore.subdomainName alice_record))
  /\ second.1 = Js.Normal (failed 400 "Invalid IPv4 address")
  /\ second.1 <> Js.Normal (failed 409 "This subdomain is already taken").
Proof.
  cbv zeta. repeat split; try (vm_compute; reflexivity).
  vm_compute. discriminate.
Qed.

Lemma label_taken_amended_witness :
  (exists d1, subdomains world1 !! "0" = Some d1 /\ Firestore.subdomainName d1 = "alice")
  /\ (exists r2 w2 evs2,
        @SubdomainsIndex.handlePost validator_js env_example
          (post owner2 " Alice " "A" "10.0.0.9") 2000 reply_ok world1 = (Js.Normal r2, w2)
        /\ code r2 <> 201%N
        /\ subdomains w2 = subdomains world1
        /\ zone w2 = zone world1
        /\ trace w2 = (trace world1 ++ evs2)%list
        /\ (evs2 = [] \/ evs2 = [StoreQuery "alice"])).
Proof.
  pose proof (@label_taken_amended validator_js env_example
                (post owner1 "alice" "A" "10.0.0.5") 1000 reply_ok world0 world1
                "0" alice_record [] world1
                (post owner2 " Alice " "A" "10.0.0.9") 2000 reply_ok
                first_create_alice (history_nil world1)
                (fun Hin : In (StoreDelete "0") [] => Hin) eq_refl) as Hthm.
  cbv zeta in Hthm. destruct Hthm as (Hstill & Hnever & _).
  split; [exact Hstill | exact Hnever].
Defined.

Lemma delete_unconditional_witness :
  exists w',
    @SubdomainsId.handleDelete env_example owner1 "0" reply_down world1
      = (Js.Normal (mkResponse 200 DeletedJson), w')
    /\ subdomains w' = delete "0" (subdomains world1)
    /\ subdomains w' !! "0" = None
    /\ trace w' = (trace world1 ++ [StoreGet "0"]
                   ++ (if Firestore.dnsCreated alice_record
                       then [DnsPatch (@PowerDNS.deleteRRset env_example
                                         (Firestore.subdomainName alice_record)
                                         (Firestore.recordType alice_record))]
                       else [])
                   ++ [StoreDelete "0"])%list.
Proof.
  apply (@delete_unconditional env_example owner1 "0" reply_down world1
           alice_record).
  - vm_compute. reflexivity.
  - reflexivity.
Defined.

Lemma updateTarget_frame_witness :
  exists d' w',
    @SubdomainsId.handlePatch validator_js env_example admin "0" (Js.Str "10.0.0.9")
      5000 reply_401 world1 = (Js.Normal (updated "0" d'), w')
    /\ subdomains w' !! "0" = Some d'
    /\ (forall j, j <> "0" -> subdomains w' !! j = subdomains world1 !! j)
    /\ Firestore.subdomainName d' = Firestore.subdomainName alice_record
    /\ Firestore.userEmail d' = Firestore.userEmail alice_record
    /\ Firestore.userId d' = Firestore.userId alice_record
    /\ Firestore.recordType d' = Firestore.recordType alice_record
    /\ Firestore.status d' = Firestore.status alice_record
    /\ Firestore.createdAt d' = Firestore.createdAt alice_record
    /\ Firestore.approvedAt d' = Firestore.approvedAt alice_record
    /\ Firestore.targetUrl d' = "10.0.0.9"
    /\ (Firestore.dnsCreated d', Firestore.dnsError d') = dnsFlags reply_401
    /\ Firestore.updatedAt d' = Some 5000%Z
    /\ (forall evs w2,
          @history validator_js env_example w' evs w2 -> ~ In (StoreDelete "0") evs ->
          exists d2, subdomains w2 !! "0" = Some d2 /\ sameIdentity alice_record d2).
Proof.
  apply (@updateTarget_frame validator_js env_example admin "0" (Js.Str "10.0.0.9")
           5000 reply_401 world1 alice_record "10.0.0.9").
  - vm_compute. reflexivity.
  - reflexivity.
  - left. split; reflexivity.
Defined.


Lemma upsertA_idempotent_witness :
  zone (@PowerDNS.createARecord env_example "alice" "10.0.0.5" reply_down
          (@PowerDNS.createARecord env_example "alice" "10.0.0.5" reply_ok world0).2).2
  = zone (@PowerDNS.createARecord env_example "alice" "10.0.0.5" reply_ok world0).2.
Proof.
  refine (proj1 (proj2 (proj2
    (@upsertA_idempotent env_example "alice" "10.0.0.5" "10.0.0.9" reply_ok reply_down
       world0 _)))).
  reflexivity.
Defined.

Lemma dnsCreated_iff_no_dnsError_witness :
  subdomains world1 !! "0" = Some alice_record
  /\ (Firestore.dnsCreated alice_record = true <-> Firestore.dnsError alice_record = None)
  /\ match PowerDNS.failure reply_ok with
     | None => Firestore.dnsCreated alice_record = true
               /\ Firestore.dnsError alice_record = None
     | Some m => Firestore.dnsCreated alice_record = false
                 /\ Firestore.dnsError alice_record = Some m
     end.
Proof.
  apply (@dnsCreated_iff_no_dnsError validator_js env_example 1000 reply_ok world0 world1
           "0" alice_record).
  left. exists (post owner1 "alice" "A" "10.0.0.5"). exact first_create_alice.
Defined.

(** C8 fails as stated: the empty name fails the Name Validator, and the
    handler answers it with 400 and an error, not with [available = false]
    and a reason. *)
Lemma check_empty_name :
  Validation.validateSubdomainName (Js.Str "")
  = Js.Normal (Validation.Invalid "Subdomain name is required")
  /\ SubdomainsCheck.handler "GET" (Js.Str "") world1
     = (Js.Normal (failed 400 "Subdomain name is required"), world1)
  /\ ~ exists c reason w',
         SubdomainsCheck.handler "GET" (Js.Str "") world1
         = (Js.Normal (mkResponse c (AvailabilityJson false reason)), w').
Proof.
  split; [reflexivity |]. split; [reflexivity |].
  intros (c & reason & w' & Hrun). rewrite check_run in Hrun. cbn in Hrun. discriminate.
Qed.

(** * The rate limiter *)

Lemma checkRateLimit_run (identifier : string) (maxRequests : N) (windowMs now : Z)
    (w : World) :
  RateLimit.checkRateLimit identifier maxRequests windowMs now w =
  match rateLimit w !! identifier with
  | None =>
      (Js.Normal true,
       withRateLimit (<[identifier := mkRateEntry 1 (now + windowMs)]> (rateLimit w)) w)
  | Some record =>
      if (resetTime record <? now)%Z
      then (Js.Normal true,
            withRateLimit (<[identifier := mkRateEntry 1 (now + windowMs)]> (rateLimit w)) w)
      else if (count record <? maxRequests)%N
      then (Js.Normal true,
            withRateLimit
              (<[identifier := mkRateEntry (count record + 1) (resetTime record)]>
                 (rateLimit w)) w)
      else (Js.Normal false, w)
  end.
Proof.
  unfold RateLimit.checkRateLimit, withRateLimit. run.
  destruct (rateLimit w !! identifier) as [record|]; run; [| reflexivity].
  destruct (resetTime record <? now)%Z; run; [reflexivity |].
  destruct (count record <? maxRequests)%N; run; reflexivity.
Qed.




(** X2. One call of the limiter touches nothing but the entry of its own
    identifier, and a refusal touches nothing at all: the count of a
    refused identifier does not grow and its window is not extended. *)
Theorem rate_limit_frame (identifier : string) (maxRequests : N) (windowMs now : Z)
    (w : World) :
  exists b w',
    RateLimit.checkRateLimit identifier maxRequests windowMs now w = (Js.Normal b, w')
    /\ subdomains w' = subdomains w /\ zone w' = zone w /\ trace w' = trace w
    /\ (forall other, other <> identifier -> rateLimit w' !! other = rateLimit w !! other)
    /\ (b = false ->
        w' = w
        /\ exists record, rateLimit w !! identifier = Some record
                          /\ (now <= resetTime record)%Z
                          /\ (maxRequests <= count record)%N).
Proof.
  rewrite checkRateLimit_run.
  destruct (rateLimit w !! identifier) as [record|] eqn:Hrec.
  - destruct (Z.ltb_spec (resetTime record) now).
    + do 2 eexists. split; [reflexivity |]. cbn [withRateLimit subdomains zone trace rateLimit].
      repeat split; try discriminate. intros other Hne. apply lookup_insert_ne. congruence.
    + destruct (N.ltb_spec (count record) maxRequests).
      * do 2 eexists. split; [reflexivity |].
        cbn [withRateLimit subdomains zone trace rateLimit].
        repeat split; try discriminate. intros other Hne. apply lookup_insert_ne. congruence.
      * do 2 eexists. split; [reflexivity |]. repeat split. eauto.
  - do 2 eexists. split; [reflexivity |]. cbn [withRateLimit subdomains zone trace rateLimit].
    repeat split; try discriminate. intros other Hne. apply lookup_insert_ne. congruence.
Qed.



Lemma cleanup_fold_other (now : Z) (k : string) (l : list (string * RateEntry))
    (m : gmap string RateEntry) :
  (forall e, In e l -> e.1 = k -> (resetTime e.2 <? now)%Z = false) ->
  foldl (RateLimit.cleanupEntry now) m l !! k = m !! k.
Proof.
  revert m. induction l as [|e l IH]; intros m Hl; [reflexivity |].
  cbn [foldl]. rewrite IH by (intros e' He'; apply Hl; right; exact He').
  unfold RateLimit.cleanupEntry.
  destruct (resetTime e.2 <? now)%Z eqn:E; [| reflexivity].
  apply lookup_delete_ne. intros Hk.
  rewrite (Hl e (or_introl eq_refl) Hk) in E. discriminate.
Qed.

Lemma classic_expired (now : Z) (k : string) (l : list (string * RateEntry)) :
  (exists e, In e l /\ e.1 = k /\ (resetTime e.2 <? now)%Z = true)
  \/ (forall e, In e l -> e.1 = k -> (resetTime e.2 <? now)%Z = false).
Proof.
  induction l as [|e l [(e0 & Hin & Hk & Hexp) | Hnone]].
  - right. intros e [].
  - left. exists e0. split; [right; exact Hin | auto].
  - destruct (decide (e.1 = k)) as [Hk | Hk];
      [destruct (resetTime e.2 <? now)%Z eqn:E |].
    + left. exists e. split; [left; reflexivity | auto].
    + right. intros e' [<- | Hin] Hk'; [exact E | exact (Hnone e' Hin Hk')].
    + right. intros e' [<- | Hin] Hk'; [contradiction | exact (Hnone e' Hin Hk')].
Qed.

Lemma cleanup_fold_gone (now : Z) (k : string) (l : list (string * RateEntry))
    (m : gmap string RateEntry) :
  (exists e, In e l /\ e.1 = k /\ (resetTime e.2 <? now)%Z = true) ->
  foldl (RateLimit.cleanupEntry now) m l !! k = None.
Proof.
  revert m. induction l as [|e l IH]; intros m (e0 & Hin & Hk & Hexp); [destruct Hin |].
  cbn [foldl].
  destruct (classic_expired now k l) as [Hlater | Hnone].
  - apply IH. exact Hlater.
  - rewrite cleanup_fold_other by exact Hnone.
    destruct Hin as [<- | Hin].
    + unfold RateLimit.cleanupEntry. rewrite Hexp, Hk. apply lookup_delete_eq.
    + rewrite (Hnone e0 Hin Hk) in Hexp. discriminate.
Qed.

Lemma cleanup_lookup (now : Z) (rl : gmap string RateEntry) (k : string) :
  foldl (RateLimit.cleanupEntry now) rl (map_to_list rl) !! k =
  match rl !! k with
  | Some record => if (resetTime record <? now)%Z then None else Some record
  | None => None
  end.
Proof.
  destruct (rl !! k) as [record|] eqn:Hk.
  - destruct (resetTime record <? now)%Z eqn:E.
    + apply cleanup_fold_gone. exists (k, record). split; [| auto].
      apply list_elem_of_In, elem_of_map_to_list. exact Hk.
    + rewrite cleanup_fold_other; [exact Hk |].
      intros [k' r'] Hin Hk'. cbn in *. subst k'.
      apply list_elem_of_In, elem_of_map_to_list in Hin. congruence.
  - rewrite cleanup_fold_other; [exact Hk |].
    intros [k' r'] Hin Hk'. cbn in *. subst k'.
    apply list_elem_of_In, elem_of_map_to_list in Hin. congruence.
Qed.

(** X4. [cleanupRateLimit] deletes the entries whose window is over at
    the time of the call, and only those: every other entry is kept as it
    is, and the store, the zone and the trace are not touched. *)
Theorem cleanup_removes_expired (now : Z) (w : World) :
  exists rl,
    RateLimit.cleanupRateLimit now w = (Js.Normal tt, withRateLimit rl w)
    /\ forall k,
         rl !! k = match rateLimit w !! k with
                   | Some record => if (resetTime record <? now)%Z then None else Some record
                   | None => None
                   end.
Proof.
  eexists. split; [reflexivity |]. apply cleanup_lookup.
Qed.

(** X5. The cleanup cannot be seen through the limiter: at any time not
    before the cleanup, [checkRateLimit] gives the same answer and leaves
    the same entry for the identifier whether or not the cleanup has
    run. *)
Theorem cleanup_transparent (identifier : string) (maxRequests : N)
    (windowMs now now' : Z) (w : World) :
  (now <= now')%Z ->
  let cleaned := (RateLimit.cleanupRateLimit now w).2 in
  let after := RateLimit.checkRateLimit identifier maxRequests windowMs now' cleaned in
  let plain := RateLimit.checkRateLimit identifier maxRequests windowMs now' w in
  after.1 = plain.1
  /\ rateLimit after.2 !! identifier = rateLimit plain.2 !! identifier.
Proof.
  intros Hle. cbv zeta.
  change (RateLimit.cleanupRateLimit now w).2
    with (withRateLimit (foldl (RateLimit.cleanupEntry now) (rateLimit w)
                           (map_to_list (rateLimit w))) w).
  rewrite !checkRateLimit_run. cbn [withRateLimit rateLimit].
  rewrite cleanup_lookup.
  destruct (rateLimit w !! identifier) as [record|] eqn:Hrec.
  - destruct (Z.ltb_spec (resetTime record) now) as [Hexp | Hlive].
    + destruct (Z.ltb_spec (resetTime record) now') as [_ | ?]; [| lia].
      cbn [fst snd withRateLimit rateLimit]. rewrite !lookup_insert_eq. auto.
    + destruct (resetTime record <? now')%Z;
        [| destruct (count record <? maxRequests)%N];
        cbn [fst snd withRateLimit rateLimit]; rewrite ?lookup_insert_eq; auto.
      rewrite cleanup_lookup, Hrec.
      destruct (Z.ltb_spec (resetTime record) now); [lia | auto].
  - cbn [fst snd withRateLimit rateLimit]. rewrite !lookup_insert_eq. auto.
Qed.

(** * The address of the client *)

(** The first piece of a split: it has no separator in it, and the string
    is that piece, or that piece, a separator and a rest. *)
Lemma split_first (s : string) :
  exists first rest,
    Js.split "," s = first :: rest
    /\ noComma first = true
    /\ (s = first \/ exists tail, s = first +:+ "," +:+ tail).
Proof.
  induction s as [|c s (first & rest & Hsplit & Hno & Hshape)].
  - exists "", []. repeat split. left. reflexivity.
  - cbn [Js.split]. destruct (Ascii.eqb_spec c ",") as [-> | Hc].
    + exists "", (first :: rest). rewrite Hsplit. repeat split.
      right. exists s. reflexivity.
    + rewrite Hsplit. exists (String c first), rest. split; [reflexivity |]. split.
      * unfold noComma in *. cbn [Js.every]. rewrite Hno.
        destruct (Ascii.eqb_spec c ","); [contradiction | reflexivity].
      * destruct Hshape as [-> | (tail & ->)]; [left; reflexivity |].
        right. exists tail. reflexivity.
Qed.

Lemma orElse_nonempty (a : option string) (b : string) :
  b <> "" -> RateLimit.orElse a b <> "".
Proof.
  intros Hb. unfold RateLimit.orElse. destruct a as [s|]; [| exact Hb].
  destruct (String.eqb_spec s ""); [exact Hb | assumption].
Qed.

(** X6. [getClientIP] never gives the empty string.  When the
    x-forwarded-for header is there and does not begin with a comma, the
    answer is the part of the header before its first comma, spaces
    included, whatever x-real-ip and the connection say; when neither
    header nor the connection gives a non-empty address, the answer is
    "unknown". *)
Theorem getClientIP_sources (o : Origin) :
  RateLimit.getClientIP o <> ""
  /\ (forall h, x_forwarded_for o = Some h ->
        Js.startsWith h "," = false -> h <> "" ->
        noComma (RateLimit.getClientIP o) = true
        /\ (h = RateLimit.getClientIP o
            \/ exists tail, h = RateLimit.getClientIP o +:+ "," +:+ tail))
  /\ ((x_forwarded_for o = None \/ exists h, x_forwarded_for o = Some h
                                            /\ (h = "" \/ Js.startsWith h "," = true)) ->
      (x_real_ip o = None \/ x_real_ip o = Some "") ->
      (remoteAddress o = None \/ remoteAddress o = Some "") ->
      RateLimit.getClientIP o = "unknown").
Proof.
  unfold RateLimit.getClientIP. split; [| split].
  - repeat apply orElse_nonempty. discriminate.
  - intros h Hh Hstart Hne. rewrite Hh.
    destruct (split_first h) as (first & rest & Hsplit & Hno & Hshape).
    rewrite Hsplit. cbn [hd_error RateLimit.orElse].
    destruct (String.eqb_spec first "") as [-> | Hfirst]; [| auto].
    exfalso. destruct Hshape as [-> | (tail & ->)]; [congruence |].
    unfold Js.startsWith in Hstart. cbn [String.append String.prefix] in Hstart.
    destruct (ascii_dec "," ","); [destruct tail; discriminate | congruence].
  - intros Hfwd Hreal Hconn.
    assert (Hf : match x_forwarded_for o with
                 | Some h => hd_error (Js.split "," h)
                 | None => None
                 end = None
                 \/ match x_forwarded_for o with
                    | Some h => hd_error (Js.split "," h)
                    | None => None
                    end = Some "").
    { destruct Hfwd as [-> | (h & -> & [-> | Hstart])]; [left; reflexivity | right; reflexivity |].
      right. destruct h as [|c h]; [discriminate |].
      unfold Js.startsWith in Hstart. cbn [String.prefix] in Hstart.
      destruct (ascii_dec "," c) as [<- | ?]; [| discriminate]. reflexivity. }
    destruct Hf as [-> | ->]; destruct Hreal as [-> | ->]; destruct Hconn as [-> | ->];
      reflexivity.
Qed.

(** * What the client sends *)

Lemma startsWith_char (s : string) (c : ascii) :
  Js.startsWith s (String c "") = true <-> String.get 0 s = Some c.
Proof.
  unfold Js.startsWith. destruct s as [|a s]; [split; discriminate |].
  change (String.prefix (String c "") (String a s))
    with (if ascii_dec c a then String.prefix "" s else false).
  change (String.get 0 (String a s)) with (Some a).
  destruct (ascii_dec c a) as [<- | Hne].
  - split; [reflexivity | intros _; destruct s; reflexivity].
  - split; [discriminate | intros [= E]; congruence].
Qed.

Lemma get_last_append (t : string) (c : ascii) :
  String.get (String.length (t +:+ String c "") - 1) (t +:+ String c "") = Some c.
Proof.
  induction t as [|a t IH]; [reflexivity |].
  change (String a t +:+ String c "") with (String a (t +:+ String c "")).
  destruct (t +:+ String c "") as [|b x] eqn:E; [destruct t; discriminate |].
  replace (String.length (String a (String b x)) - 1)%nat
    with (S (String.length (String b x) - 1)) by (cbn [String.length]; lia).
  exact IH.
Qed.

Lemma endsWith_dot_append (t : string) : Js.endsWith (t +:+ ".") "." = true.
Proof.
  unfold Js.endsWith. change (String.rev ".") with ".".
  apply (proj2 (startsWith_char (String.rev (t +:+ ".")) ".")).
  unfold String.rev. rewrite rev_app_head by (destruct t; discriminate).
  apply get_last_append.
Qed.

(** X7. Each of [createARecord], [createCNAMERecord] and [deleteRecord]
    sends one request and no more, whatever the reply: a PATCH of the zone
    with the API key, for the name of the subdomain in the zone.  It
    returns true on a 2xx status, and throws otherwise: the error of the
    transport when the server was not reached, and an error with the
    status and the body of the response when the status is not 2xx.  The
    store and the rate limiter are not touched. *)
Theorem client_sends_once `{PowerDNSEnv}
    (subdomain content recordType : string) (reply : Pdns.Reply) (w : World) :
  forall op,
    op = PowerDNS.createARecord subdomain content
    \/ op = PowerDNS.createCNAMERecord subdomain content
    \/ op = PowerDNS.deleteRecord subdomain recordType ->
    exists rq w',
      op reply w
      = (match reply with
         | Pdns.Response st text =>
             if Pdns.ok st then Js.Normal true
             else Js.Throw (Js.mkError ("PowerDNS API error (" +:+ pretty st +:+ "): "
                                        +:+ text))
         | Pdns.Unreachable e => Js.Throw e
         end, w')
      /\ clientRequest subdomain rq
      /\ trace w' = (trace w ++ [DnsPatch rq])%list
      /\ subdomains w' = subdomains w
      /\ rateLimit w' = rateLimit w.
Proof.
  intros op Hop.
  assert (Hsend : forall rq, clientRequest subdomain rq ->
            exists rq0 w',
              PowerDNS.send rq reply w
              = (match reply with
                 | Pdns.Response st text =>
                     if Pdns.ok st then Js.Normal true
                     else Js.Throw (Js.mkError ("PowerDNS API error (" +:+ pretty st
                                                +:+ "): " +:+ text))
                 | Pdns.Unreachable e => Js.Throw e
                 end, w')
              /\ clientRequest subdomain rq0
              /\ trace w' = (trace w ++ [DnsPatch rq0])%list
              /\ subdomains w' = subdomains w
              /\ rateLimit w' = rateLimit w).
  { intros rq Hrq. exists rq, (afterPatch rq reply w). rewrite send_run.
    split; [| split; [exact Hrq | repeat split]].
    f_equal. unfold PowerDNS.failure, PowerDNS.apiError.
    destruct reply as [st text | [m]]; [destruct (Pdns.ok st) |]; reflexivity. }
  destruct Hop as [-> | [-> | ->]];
    unfold PowerDNS.createARecord, PowerDNS.createCNAMERecord, PowerDNS.deleteRecord;
    apply Hsend; unfold clientRequest; cbn;
    (repeat split; [left; reflexivity | eexists; split; reflexivity]).
Qed.

(** X8. [createCNAMERecord] sends a content that ends with a dot: a
    target that ends with a dot goes out as it is, any other gets one dot
    added, so that "example.com" and "example.com." give the same
    request.  Nothing else is done to the target. *)
Theorem cname_content_dotted `{PowerDNSEnv} (subdomain target : string) :
  exists content,
    Pdns.rrsets (PowerDNS.replaceCNAME subdomain target)
    = [ {| Pdns.name := subdomain +:+ "." +:+ POWERDNS_ZONE;
           Pdns.type := "CNAME";
           Pdns.ttl := Some 3600%N;
           Pdns.changetype := Pdns.REPLACE;
           Pdns.records := [Pdns.mkRecord content false] |} ]
    /\ Js.endsWith content "." = true
    /\ (content = target \/ content = target +:+ ".")
    /\ PowerDNS.replaceCNAME subdomain (content) = PowerDNS.replaceCNAME subdomain target.
Proof.
  unfold PowerDNS.replaceCNAME, PowerDNS.patch. cbn [Pdns.rrsets].
  destruct (Js.endsWith target ".") eqn:E.
  - exists target. rewrite E. auto.
  - exists (target +:+ "."). rewrite endsWith_dot_append. auto.
Qed.

(** * More on the validators *)

Lemma labelChar_lower (c : ascii) : Validation.labelChar c = true -> Js.lowerChar c = c.
Proof.
  unfold Validation.labelChar, Js.lowerChar, Js.between.
  rewrite !orb_true_iff, !andb_true_iff, !N.leb_le, N.eqb_eq. intros Hc.
  destruct (_ || _) eqn:E; [| reflexivity].
  rewrite orb_true_iff, !andb_true_iff, !N.leb_le in E. lia.
Qed.

Lemma labelChar_not_space (c : ascii) :
  Validation.labelChar c = true -> Js.isWhiteSpace c = false.
Proof.
  unfold Validation.labelChar, Js.isWhiteSpace, Js.between.
  rewrite !orb_true_iff, !andb_true_iff, !N.leb_le, N.eqb_eq. intros Hc.
  rewrite !orb_false_iff, andb_false_iff, !N.leb_gt, !N.eqb_neq. lia.
Qed.

Lemma toLowerCase_label (s : string) :
  Js.every Validation.labelChar s = true -> Js.toLowerCase s = s.
Proof.
  induction s as [|c s IH]; [reflexivity |]. cbn [Js.every Js.toLowerCase].
  rewrite andb_true_iff. intros [Hc Hs]. rewrite labelChar_lower, IH; auto.
Qed.

Lemma trim_label (s : string) :
  Js.every Validation.labelChar s = true -> Js.trim s = s.
Proof.
  intros Hs. unfold Js.trim.
  assert (Hstart : Js.trimStart s = s).
  { destruct s as [|c s]; [reflexivity |]. cbn [Js.every] in Hs.
    apply andb_true_iff in Hs. destruct Hs as [Hc _].
    cbn [Js.trimStart]. rewrite labelChar_not_space; auto. }
  rewrite Hstart. clear Hstart.
  induction s as [|c s IH]; [reflexivity |]. cbn [Js.every] in Hs.
  apply andb_true_iff in Hs. destruct Hs as [Hc Hs].
  cbn [Js.trimEnd]. rewrite IH by exact Hs.
  destruct s; [rewrite labelChar_not_space; auto | reflexivity].
Qed.

Lemma validate_valid_inv (v : Js.value) (l : string) :
  Validation.validateSubdomainName v = Js.Normal (Validation.Valid l) ->
  exists s, v = Js.Str s /\ l = Spec.normalize s /\ Spec.label l.
Proof.
  unfold Validation.validateSubdomainName.
  destruct v as [| |b|n|s|]; cbn [Js.truthy Js.typeof]; try discriminate.
  - destruct b; discriminate.
  - destruct (negb (n =? 0)%Z); discriminate.
  - change ("string" =? "string") with true.
    destruct (negb (String.eqb s "")); cbn [negb orb]; [| discriminate].
    cbn [Js.call_trim Js.bind]. fold (Spec.normalize s). set (t := Spec.normalize s).
    pose proof (label_checks t) as L.
    destruct (_ || _) eqn:E1; [discriminate |].
    destruct (Validation.re_label t) eqn:E2; cbn [negb]; [| discriminate].
    destruct (Js.startsWith t "-" || Js.endsWith t "-") eqn:E3; [discriminate |].
    destruct (Validation.includes Validation.reserved t) eqn:E4; [discriminate |].
    intros [= <-]. exists s. split; [reflexivity |]. split; [reflexivity |].
    apply L. auto.
Qed.

Lemma validate_label (l : string) :
  Spec.label l -> Spec.normalize l = l ->
  Validation.validateSubdomainName (Js.Str l) = Js.Normal (Validation.Valid l).
Proof.
  intros Hl Hnorm. pose proof Hl as ((Hlen & _) & _).
  apply label_checks in Hl. destruct Hl as (E1 & E2 & E3 & E4).
  unfold Validation.validateSubdomainName. cbn [Js.truthy Js.typeof].
  change ("string" =? "string") with true.
  destruct (String.eqb_spec l ""); [subst; cbn in Hlen; lia |].
  cbn [negb orb Js.call_trim Js.bind]. fold (Spec.normalize l). rewrite Hnorm.
  rewrite E1, E2. cbn [negb]. rewrite E3, E4. reflexivity.
Qed.

(** X9. The value a successful name validation hands back is a fixed
    point: validating it again gives the same valid value, so what is
    stored as [subdomainName] can be put through the validator again
    without being changed or refused. *)
Theorem validateSubdomainName_idempotent (v : Js.value) (l : string) :
  Validation.validateSubdomainName v = Js.Normal (Validation.Valid l) ->
  Validation.validateSubdomainName (Js.Str l) = Js.Normal (Validation.Valid l).
Proof.
  intros Hv. destruct (validate_valid_inv v l Hv) as (s & _ & _ & Hl).
  apply validate_label; [exact Hl |].
  apply label_checks in Hl. destruct Hl as (_ & E2 & _).
  unfold Validation.re_label in E2. apply andb_true_iff in E2. destruct E2 as [_ E2].
  unfold Spec.normalize. rewrite trim_label by exact E2. apply toLowerCase_label, E2.
Qed.

(** X10. [validateIP], [validateURL] and [validateEmail] never throw,
    whatever the library's predicates answer: anything that is not a
    non-empty string is turned down with the "... is required" message
    before a string method or a predicate of the library is reached. *)
Theorem validators_never_throw `{Validator} `{ValidatorText} (v : Js.value) :
  (exists r, Validation.validateIP v = Js.Normal r)
  /\ (exists r, Validation.validateURL v = Js.Normal r)
  /\ (exists r, ValidationText.validateEmail v = Js.Normal r)
  /\ ((forall s, v = Js.Str s -> s = "") ->
      Validation.validateIP v = Js.Normal (Validation.Invalid "IP address is required")
      /\ Validation.validateURL v = Js.Normal (Validation.Invalid "URL/domain is required")
      /\ ValidationText.validateEmail v
         = Js.Normal (Validation.Invalid "Email is required")).
Proof.
  unfold Validation.validateIP, Validation.validateURL, ValidationText.validateEmail.
  destruct v as [| |b|n|s|]; cbn [Js.truthy Js.typeof].
  1,2,6: repeat split; eauto.
  - destruct b; repeat split; eauto.
  - destruct (negb (n =? 0)%Z); repeat split; eauto.
  - change ("string" =? "string") with true.
    destruct (String.eqb_spec s "") as [-> | Hs]; cbn [negb orb].
    + repeat split; eauto.
    + cbn [Js.assertString Js.call_trim Js.bind].
      split; [| split; [| split]].
      * destruct (isIP s 4); cbn [negb]; eauto.
      * destruct (isFQDN _); cbn [negb]; eauto.
      * destruct (isEmail s); cbn [negb]; eauto.
      * intros Hall. exfalso. apply Hs. apply Hall. reflexivity.
Qed.

Lemma substring0_prefix (n : nat) (s : string) :
  String.prefix (String.substring 0 n s) s = true
  /\ String.length (String.substring 0 n s) = Nat.min n (String.length s).
Proof.
  revert n. induction s as [|c s IH]; intros [|n]; cbn; auto.
  destruct (IH n) as [Hp Hl]. rewrite Hp, Hl.
  destruct (ascii_dec c c); [auto | congruence].
Qed.

(** X11. [sanitizeText] gives the empty string for a missing or empty
    text, and throws a TypeError for any other value that is not a string:
    unlike the validators it has no [typeof] guard.  For a non-empty
    string, what it hands to [escape] is the beginning of the trimmed
    text, of at most [maxLength] code units. *)
Theorem sanitizeText_cases `{ValidatorText} (text : Js.value) (maxLength : Z) :
  (Js.truthy text = false -> ValidationText.sanitizeText text maxLength = Js.Normal "")
  /\ (Js.truthy text = true -> (forall s, text <> Js.Str s) ->
      exists e, ValidationText.sanitizeText text maxLength = Js.Throw e)
  /\ (forall s, text = Js.Str s -> s <> "" ->
      exists cut,
        ValidationText.sanitizeText text maxLength = Js.Normal (escape cut)
        /\ String.prefix cut (Js.trim s) = true
        /\ String.length cut
           = Nat.min (Z.to_nat maxLength) (String.length (Js.trim s))).
Proof.
  unfold ValidationText.sanitizeText. split; [| split].
  - intros ->. reflexivity.
  - intros -> Hns. destruct text as [| |b|n|s|]; cbn [negb Js.call_trim Js.bind]; eauto.
    exfalso. apply (Hns s). reflexivity.
  - intros s -> Hs. cbn [Js.truthy]. destruct (String.eqb_spec s ""); [contradiction |].
    cbn [negb Js.call_trim Js.bind]. eexists. split; [reflexivity |].
    apply substring0_prefix.
Qed.

(** * The handlers on every input *)

(** A handler whose [catch] answers always answers. *)
Lemma tryCatch_answers (m : M Response) (c : N) (j : Json) (w : World) :
  exists r w', tryCatch m (fun _ => respond c j) w = (Js.Normal r, w').
Proof.
  unfold tryCatch, respond, ret. destruct (m w) as [[r | e] w']; eauto.
Qed.





(** X13. After five requests from an address have been counted in the
    window that is still open, [handlePost] answers 429 before it looks at
    the body, and leaves the world as it is, the counter included. *)
Theorem create_rate_limited `{Validator} `{PowerDNSEnv}
    (req : SubdomainsIndex.Request) (now : Z) (reply : Pdns.Reply) (w : World)
    (record : RateEntry) :
  rateLimit w !! RateLimit.getClientIP (SubdomainsIndex.origin req) = Some record ->
  (now <= resetTime record)%Z ->
  (5 <= count record)%N ->
  SubdomainsIndex.handlePost req now reply w
  = (Js.Normal (failed 429 "Too many requests. Please try again later."), w).
Proof.
  intros Hrec Hopen Hfull. unfold SubdomainsIndex.handlePost. run.
  rewrite checkRateLimit_run, Hrec.
  destruct (Z.ltb_spec (resetTime record) now); [lia |].
  destruct (N.ltb_spec (count record) 5); [lia |]. reflexivity.
Qed.


(** X15. What a successful create has done, in order: one query of the
    store for the label, one request to the DNS Directory for the record
    type, the label and the target of the new record, and one addition
    to the store, under an identifier that was free.  The record belongs
    to the caller, is approved on creation ([approvedAt] is [createdAt],
    the time of the call) and has never been updated. *)
Theorem create_effects `{Validator} `{PowerDNSEnv}
    (req : SubdomainsIndex.Request) (now : Z) (reply : Pdns.Reply) (w w' : World)
    (id : string) (d : Firestore.Doc) :
  SubdomainsIndex.handlePost req now reply w = (Js.Normal (created id d), w') ->
  trace w' = (trace w ++ [StoreQuery (Firestore.subdomainName d);
                          DnsPatch (upsertRequest (Firestore.recordType d)
                                      (Firestore.subdomainName d) (Firestore.targetUrl d));
                          StoreAdd id])%list
  /\ subdomains w !! id = None
  /\ subdomains w' = <[id := d]> (subdomains w)
  /\ (Firestore.recordType d = "A" \/ Firestore.recordType d = "CNAME")
  /\ Firestore.userId d = uid (SubdomainsIndex.user req)
  /\ Firestore.userEmail d = email (SubdomainsIndex.user req)
  /\ Firestore.status d = Firestore.approved
  /\ Firestore.createdAt d = now
  /\ Firestore.approvedAt d = Some now
  /\ Firestore.updatedAt d = None.
Proof.
  intros Hrun.
  destruct (handlePost_created_inv _ _ _ _ _ _ _ Hrun)
    as (label & rt & target & Hadm & Hwf & Hfree).
  rewrite (handlePost_wellFormed req now reply w label rt target Hadm Hwf) in Hrun.
  apply whereName_empty in Hfree. rewrite Hfree in Hrun. cbv zeta in Hrun.
  unfold created in Hrun. injection Hrun as <- <- <-.
  cbn [trace subdomains createdDoc Firestore.subdomainName Firestore.recordType
       Firestore.targetUrl Firestore.userId Firestore.userEmail Firestore.status
       Firestore.createdAt Firestore.approvedAt Firestore.updatedAt].
  repeat split; try reflexivity; [apply autoId_unused |].
  destruct Hwf as (_ & _ & Hacc). eapply targetAccepted_types. exact Hacc.
Qed.

(** * Reading, updating and deleting on every input *)

Lemma handleGet_run (user : User) (id : string) (w : World) :
  SubdomainsId.handleGet user id w =
  (Js.Normal
     match subdomains w !! id with
     | None => failed 404 "Subdomain not found"
     | Some data =>
         if SubdomainsId.denied user data then failed 403 "Access denied"
         else mkResponse 200 (RecordJson id data)
     end, logged w [StoreGet id]).
Proof.
  unfold SubdomainsId.handleGet, Db.get. run.
  destruct (subdomains w !! id) as [data|]; [destruct (SubdomainsId.denied user data) |];
    reflexivity.
Qed.

(** X16. The two read paths change nothing: [handleGet] of [[id].js] and
    the availability handler of [check.js] always answer, and leave the
    store, the rate limiter and the directory as they were; the first
    reads one document, the second makes at most one query.  A record that
    does not exist is a 404 for everyone, and a check with another method
    than GET is a 405 that does not look at the name. *)
Theorem reads_change_nothing (user : User) (id method : string) (name : Js.value)
    (w : World) :
  (exists r, SubdomainsId.handleGet user id w = (Js.Normal r, logged w [StoreGet id])
             /\ (subdomains w !! id = None -> r = failed 404 "Subdomain not found"))
  /\ (exists r w' evs,
        SubdomainsCheck.handler method name w = (Js.Normal r, w')
        /\ subdomains w' = subdomains w /\ rateLimit w' = rateLimit w /\ zone w' = zone w
        /\ trace w' = (trace w ++ evs)%list
        /\ (evs = [] \/ exists label, evs = [StoreQuery label])
        /\ (method <> "GET" -> r = failed 405 "Method not allowed" /\ evs = [])).
Proof.
  split.
  - rewrite handleGet_run. eexists. split; [reflexivity |]. intros ->. reflexivity.
  - destruct (String.eqb_spec method "GET") as [-> | Hm].
    + rewrite check_run. cbv zeta.
      destruct (Js.truthy name); cbn [negb];
        [destruct (Validation.validateSubdomainName name) as [[reason | label] | e] |].
      2:{ do 2 eexists. exists [StoreQuery label]. split; [reflexivity |].
          cbn [logged subdomains rateLimit zone trace].
          repeat split; eauto; congruence. }
      all: do 2 eexists; exists []; (split; [reflexivity |]); rewrite app_nil_r;
        repeat split; auto; congruence.
    + unfold SubdomainsCheck.handler.
      destruct (String.eqb_spec method "GET"); [contradiction |]. cbn [negb].
      do 2 eexists. exists []. split; [reflexivity |]. rewrite app_nil_r.
      repeat split; auto.
Qed.

(** Every path through [handlePatch]. *)
Lemma handlePatch_paths `{Validator} `{PowerDNSEnv}
    (user : User) (id : string) (targetUrl : Js.value) (now : Z) (reply : Pdns.Reply)
    (w : World) :
  let quiet r := SubdomainsId.handlePatch user id targetUrl now reply w
                 = (Js.Normal r, logged w [StoreGet id]) in
  match subdomains w !! id with
  | None => quiet (failed 404 "Subdomain not found")
  | Some d =>
      if SubdomainsId.denied user d then quiet (failed 403 "Access denied")
      else if negb (Js.truthy targetUrl) then quiet (failed 400 "targetUrl is required")
      else match SubdomainsId.validateTarget (Firestore.recordType d) targetUrl with
           | Js.Normal (Validation.Invalid reason) => quiet (failed 400 reason)
           | Js.Throw _ => quiet (failed 500 "Failed to update subdomain")
           | Js.Normal (Validation.Valid target) =>
               exists w', SubdomainsId.handlePatch user id targetUrl now reply w
                          = (Js.Normal (updated id (patchedDoc d target reply now)), w')
           end
  end.
Proof.
  cbv zeta.
  destruct (subdomains w !! id) as [d|] eqn:Hd.
  2:{ unfold SubdomainsId.handlePatch, Db.get. run. rewrite Hd. reflexivity. }
  destruct (SubdomainsId.denied user d) eqn:Hden.
  { unfold SubdomainsId.handlePatch, Db.get. run. rewrite Hd, Hden. reflexivity. }
  destruct (Js.truthy targetUrl) eqn:Ht; cbn [negb].
  2:{ unfold SubdomainsId.handlePatch, Db.get. run. rewrite Hd, Hden, Ht. reflexivity. }
  destruct (SubdomainsId.validateTarget (Firestore.recordType d) targetUrl)
    as [[reason | target] | e] eqn:Hv.
  1,3: unfold SubdomainsId.handlePatch, Db.get; run; rewrite Hd, Hden, Ht; run;
    rewrite Hv; reflexivity.
  apply targetAccepted_validate in Hv.
  rewrite (handlePatch_accepted user id targetUrl now reply w d target Hd); [| | exact Hv].
  - cbv zeta. eauto.
  - rewrite denied_canMutate in Hden. destruct (Spec.canMutate user d); auto.
Qed.

Lemma id_validateTarget_unsupported `{Validator} (rt : string) (t : Js.value) :
  rt <> "A" -> rt <> "CNAME" ->
  exists e, SubdomainsId.validateTarget rt t = Js.Throw e.
Proof.
  intros HA HC. unfold SubdomainsId.validateTarget.
  destruct (String.eqb_spec rt "A"); [contradiction |].
  destruct (String.eqb_spec rt "CNAME"); [contradiction | eauto].
Qed.


(** X18. The refusals of [handlePatch], in the order the code makes them:
    an id that is not in the store is a 404, for strangers too; a caller
    who is neither administrator nor owner gets 403; a body with no
    [targetUrl] (a status change, say) gets 400 "targetUrl is required";
    and a record whose type is neither A nor CNAME cannot be updated at
    all: the handler runs into a TypeError and answers 500. *)
Theorem update_refusals `{Validator} `{PowerDNSEnv}
    (user : User) (id : string) (targetUrl : Js.value) (now : Z) (reply : Pdns.Reply)
    (w : World) :
  let answer := (SubdomainsId.handlePatch user id targetUrl now reply w).1 in
  (subdomains w !! id = None -> answer = Js.Normal (failed 404 "Subdomain not found"))
  /\ (forall d, subdomains w !! id = Some d ->
        (Spec.canMutate user d = false ->
         answer = Js.Normal (failed 403 "Access denied"))
        /\ (Spec.canMutate user d = true -> Js.truthy targetUrl = false ->
            answer = Js.Normal (failed 400 "targetUrl is required"))
        /\ (Spec.canMutate user d = true -> Js.truthy targetUrl = true ->
            Firestore.recordType d <> "A" -> Firestore.recordType d <> "CNAME" ->
            answer = Js.Normal (failed 500 "Failed to update subdomain"))).
Proof.
  pose proof (handlePatch_paths user id targetUrl now reply w) as Hp. cbv zeta in *.
  split.
  - intros Hd. rewrite Hd in Hp. rewrite Hp. reflexivity.
  - intros d Hd. rewrite Hd, denied_canMutate in Hp. split; [| split].
    + intros Hcan. rewrite Hcan in Hp. cbn [negb] in Hp. rewrite Hp. reflexivity.
    + intros Hcan Ht. rewrite Hcan, Ht in Hp. cbn [negb] in Hp. rewrite Hp. reflexivity.
    + intros Hcan Ht HA HC. rewrite Hcan, Ht in Hp. cbn [negb] in Hp.
      destruct (id_validateTarget_unsupported (Firestore.recordType d) targetUrl HA HC)
        as (e & He).
      rewrite He in Hp. rewrite Hp. reflexivity.
Qed.

(** Every path through [handleDelete]. *)
Lemma handleDelete_paths `{PowerDNSEnv}
    (user : User) (id : string) (reply : Pdns.Reply) (w : World) :
  match subdomains w !! id with
  | None =>
      SubdomainsId.handleDelete user id reply w
      = (Js.Normal (failed 404 "Subdomain not found"), logged w [StoreGet id])
  | Some d =>
      if Spec.canMutate user d
      then exists w', SubdomainsId.handleDelete user id reply w
                      = (Js.Normal (mkResponse 200 DeletedJson), w')
                      /\ subdomains w' = delete id (subdomains w)
      else SubdomainsId.handleDelete user id reply w
           = (Js.Normal (failed 403 "Access denied"), logged w [StoreGet id])
  end.
Proof.
  destruct (subdomains w !! id) as [d|] eqn:Hd.
  - destruct (Spec.canMutate user d) eqn:Hcan.
    + destruct (delete_of_authorized user id reply w d Hd Hcan) as (w' & Hrun & Hs & _).
      eauto.
    + unfold SubdomainsId.handleDelete, Db.get. run.
      rewrite Hd, denied_canMutate, Hcan. reflexivity.
  - unfold SubdomainsId.handleDelete, Db.get. run. rewrite Hd. reflexivity.
Qed.

(** X19. [handleDelete] always answers: 404 for an id that is not in the
    store and 403 for a caller who may not mutate the record, in both
    cases after nothing but the read of the record; 200 otherwise, and
    then the record has been removed. *)
Theorem delete_answers `{PowerDNSEnv}
    (user : User) (id : string) (reply : Pdns.Reply) (w : World) :
  match subdomains w !! id with
  | None =>
      SubdomainsId.handleDelete user id reply w
      = (Js.Normal (failed 404 "Subdomain not found"), logged w [StoreGet id])
  | Some d =>
      if Spec.canMutate user d
      then exists w', SubdomainsId.handleDelete user id reply w
                      = (Js.Normal (mkResponse 200 DeletedJson), w')
                      /\ subdomains w' = delete id (subdomains w)
      else SubdomainsId.handleDelete user id reply w
           = (Js.Normal (failed 403 "Access denied"), logged w [StoreGet id])
  end.
Proof. apply handleDelete_paths. Qed.

(** X20. The dispatcher of [[id].js]: an empty id is answered 400 and a
    method other than GET, PATCH and DELETE 405, in both cases with the
    world untouched; and whatever the request, the answer is never the
    500 "Internal server error" of the dispatcher's own [catch], since
    each of the three handlers catches what it throws. *)
Theorem dispatcher_answers `{Validator} `{PowerDNSEnv}
    (method id : string) (user : User) (targetUrl : Js.value) (now : Z)
    (reply : Pdns.Reply) (w : World) :
  (id = "" ->
   SubdomainsId.handler method id user targetUrl now reply w
   = (Js.Normal (failed 400 "Subdomain ID is required"), w))
  /\ (id <> "" -> method <> "GET" -> method <> "PATCH" -> method <> "DELETE" ->
      SubdomainsId.handler method id user targetUrl now reply w
      = (Js.Normal (failed 405 "Method not allowed"), w))
  /\ (exists r w',
        SubdomainsId.handler method id user targetUrl now reply w = (Js.Normal r, w')
        /\ r <> failed 500 "Internal server error").
Proof.
  unfold SubdomainsId.handler. cbn [Js.truthy].
  destruct (String.eqb_spec id "") as [-> | Hid]; cbn [negb].
  { repeat split; try congruence. do 2 eexists. split; [reflexivity | discriminate]. }
  split; [congruence |]. split.
  - intros _ HG HP HD.
    destruct (String.eqb_spec method "GET"); [contradiction |].
    destruct (String.eqb_spec method "PATCH"); [contradiction |].
    destruct (String.eqb_spec method "DELETE"); [contradiction |]. reflexivity.
  - unfold tryCatch at 1.
    destruct (String.eqb method "GET");
      [| destruct (String.eqb method "PATCH"); [| destruct (String.eqb method "DELETE")]].
    + rewrite handleGet_run. do 2 eexists. split; [reflexivity |].
      destruct (subdomains w !! id) as [d|]; [destruct (SubdomainsId.denied user d) |];
        discriminate.
    + pose proof (handlePatch_paths user id targetUrl now reply w) as Hp. cbv zeta in Hp.
      destruct (subdomains w !! id) as [d|];
        [| rewrite Hp; do 2 eexists; split; [reflexivity | discriminate]].
      destruct (SubdomainsId.denied user d);
        [rewrite Hp; do 2 eexists; split; [reflexivity | discriminate] |].
      destruct (negb (Js.truthy targetUrl));
        [rewrite Hp; do 2 eexists; split; [reflexivity | discriminate] |].
      destruct (SubdomainsId.validateTarget _ _) as [[reason | target] | e];
        try (rewrite Hp; do 2 eexists; split; [reflexivity | discriminate]).
      destruct Hp as (w' & ->). do 2 eexists; split; [reflexivity | discriminate].
    + pose proof (handleDelete_paths user id reply w) as Hp.
      destruct (subdomains w !! id) as [d|];
        [destruct (Spec.canMutate user d); [destruct Hp as (w' & Hp & _) |] |];
        rewrite Hp; do 2 eexists; (split; [reflexivity | discriminate]).
    + do 2 eexists. split; [reflexivity | discriminate].
Qed.

(** X21. What a successful update has done, in order: it has read the
    record, sent one request to the DNS Directory for the stored record
    type and label with the new target, updated the record, and read it
    again.  The request goes out even when the new target is the one the
    record already has, so that an update doubles as a retry of the DNS
    write. *)
Theorem update_effects `{Validator} `{PowerDNSEnv}
    (user : User) (id : string) (targetUrl : Js.value) (now : Z) (reply : Pdns.Reply)
    (w w' : World) (d' : Firestore.Doc) :
  SubdomainsId.handlePatch user id targetUrl now reply w = (Js.Normal (updated id d'), w') ->
  exists d,
    subdomains w !! id = Some d
    /\ trace w' = (trace w ++ [StoreGet id;
                               DnsPatch (upsertRequest (Firestore.recordType d)
                                           (Firestore.subdomainName d)
                                           (Firestore.targetUrl d'));
                               StoreUpdate id; StoreGet id])%list
    /\ subdomains w' = <[id := d']> (subdomains w)
    /\ rateLimit w' = rateLimit w.
Proof.
  intros Hrun.
  destruct (handlePatch_updated_inv _ _ _ _ _ _ _ _ _ Hrun)
    as (d & target & Hd & Hcan & Hacc).
  rewrite (handlePatch_accepted user id targetUrl now reply w d target Hd Hcan Hacc) in Hrun.
  cbv zeta in Hrun. unfold updated in Hrun. injection Hrun as <- <-.
  exists d. cbn [trace subdomains rateLimit]. auto.
Qed.

(** * How the operations compose *)


(** X23. A deleted record is gone for every operation: right after a
    delete that was answered 200, reading, updating and deleting the same
    id are answered 404, by whoever asks, and the second delete sends
    nothing to the DNS Directory. *)
Theorem deleted_is_gone `{Validator} `{PowerDNSEnv}
    (user : User) (id : string) (reply : Pdns.Reply) (w w' : World)
    (other : User) (targetUrl : Js.value) (now : Z) (reply' : Pdns.Reply) :
  SubdomainsId.handleDelete user id reply w = (Js.Normal (mkResponse 200 DeletedJson), w') ->
  SubdomainsId.handleGet other id w'
    = (Js.Normal (failed 404 "Subdomain not found"), logged w' [StoreGet id])
  /\ SubdomainsId.handlePatch other id targetUrl now reply' w'
    = (Js.Normal (failed 404 "Subdomain not found"), logged w' [StoreGet id])
  /\ SubdomainsId.handleDelete other id reply' w'
    = (Js.Normal (failed 404 "Subdomain not found"), logged w' [StoreGet id]).
Proof.
  intros Hdel.
  assert (Hgone : subdomains w' !! id = None)
    by (rewrite (handleDelete_deleted_inv _ _ _ _ _ Hdel); apply lookup_delete_eq).
  split; [| split].
  - rewrite handleGet_run, Hgone. reflexivity.
  - pose proof (handlePatch_paths other id targetUrl now reply' w') as Hp.
    cbv zeta in Hp. rewrite Hgone in Hp. exact Hp.
  - pose proof (handleDelete_paths other id reply' w') as Hp.
    rewrite Hgone in Hp. exact Hp.
Qed.


(** X25. The availability check and the create agree: for a request that
    is well formed, a check of its name answers [available = true] exactly
    when the create that follows it, if the rate limiter lets it through,
    is answered 201, and [available = false] exactly when it is answered
    409 "This subdomain is already taken". *)
Theorem check_agrees_with_create `{Validator} `{PowerDNSEnv}
    (req : SubdomainsIndex.Request) (now : Z) (reply : Pdns.Reply) (w : World)
    (label rt target : string) :
  wellFormed req label rt target ->
  let checked :=
    SubdomainsCheck.handler "GET" (SubdomainsIndex.subdomainName (SubdomainsIndex.body req)) w in
  admitted (SubdomainsIndex.origin req) now checked.2 ->
  exists available,
    checked.1 = Js.Normal (mkResponse 200
                             (AvailabilityJson available
                                (if available then None
                                 else Some "This subdomain is already taken")))
    /\ (SubdomainsIndex.handlePost req now reply checked.2).1
       = if available
         then Js.Normal (created (Firestore.autoId (subdomains w))
                           (createdDoc (SubdomainsIndex.user req) label target rt reply now))
         else Js.Normal (failed 409 "This subdomain is already taken").
Proof.
  intros Hwf. pose proof Hwf as (Hlabel & _).
  assert (Ht : Js.truthy (SubdomainsIndex.subdomainName (SubdomainsIndex.body req)) = true).
  { revert Hlabel. unfold Validation.validateSubdomainName.
    destruct (Js.truthy _); [reflexivity | discriminate]. }
  cbv zeta. rewrite check_run, Ht. cbn [negb].
  rewrite Hlabel. cbv zeta. cbn [fst snd].
  intros Hadm.
  rewrite (handlePost_wellFormed req now reply _ label rt target Hadm Hwf). cbv zeta.
  cbn [logged subdomains].
  exists (Firestore.empty (Firestore.whereName label (subdomains w))).
  split; [reflexivity |].
  destruct (Firestore.empty _); reflexivity.
Qed.

(** * The further statements at concrete requests *)



Lemma cleanup_transparent_witness :
  let cleaned := (RateLimit.cleanupRateLimit 900001 world_busy).2 in
  let after := RateLimit.checkRateLimit "203.0.113.7" 5 900000 900002 cleaned in
  let plain := RateLimit.checkRateLimit "203.0.113.7" 5 900000 900002 world_busy in
  after.1 = plain.1
  /\ rateLimit after.2 !! "203.0.113.7" = rateLimit plain.2 !! "203.0.113.7".
Proof.
  apply (cleanup_transparent "203.0.113.7" 5 900000 900001 900002 world_busy). lia.
Defined.

Lemma client_sends_once_witness :
  exists rq w',
    @PowerDNS.createCNAMERecord env_example "blog" "example.com" reply_401 world0
    = (Js.Throw (Js.mkError ("PowerDNS API error (" +:+ pretty 401%N +:+ "): "
                             +:+ "Unauthorized")), w')
    /\ @clientRequest env_example "blog" rq
    /\ trace w' = (trace world0 ++ [DnsPatch rq])%list
    /\ subdomains w' = subdomains world0
    /\ rateLimit w' = rateLimit world0.
Proof.
  apply (@client_sends_once env_example "blog" "example.com" "CNAME" reply_401 world0
           (@PowerDNS.createCNAMERecord env_example "blog" "example.com")).
  right. left. reflexivity.
Defined.

Lemma validateSubdomainName_idempotent_witness :
  Validation.validateSubdomainName (Js.Str "my-site")
  = Js.Normal (Validation.Valid "my-site").
Proof.
  apply (validateSubdomainName_idempotent (Js.Str " My-Site ") "my-site"). reflexivity.
Defined.

Lemma create_rate_limited_witness :
  @SubdomainsIndex.handlePost validator_js env_example
    (post owner1 "alice" "A" "10.0.0.5") 1000 reply_ok world_busy
  = (Js.Normal (failed 429 "Too many requests. Please try again later."), world_busy).
Proof.
  apply (@create_rate_limited validator_js env_example
           (post owner1 "alice" "A" "10.0.0.5") 1000 reply_ok world_busy
           (mkRateEntry 5 900000)).
  - vm_compute. reflexivity.
  - cbn. lia.
  - cbn. lia.
Defined.


Lemma create_effects_witness :
  trace world1
  = (trace world0 ++ [StoreQuery (Firestore.subdomainName alice_record);
                      DnsPatch (@upsertRequest env_example (Firestore.recordType alice_record)
                                  (Firestore.subdomainName alice_record)
                                  (Firestore.targetUrl alice_record));
                      StoreAdd "0"])%list.
Proof.
  exact (proj1 (@create_effects validator_js env_example
                  (post owner1 "alice" "A" "10.0.0.5") 1000 reply_ok world0 world1
                  "0" alice_record first_create_alice)).
Defined.


Lemma delete_alice :
  @SubdomainsId.handleDelete env_example owner1 "0" reply_ok world1
  = (Js.Normal (mkResponse 200 DeletedJson), world2).
Proof. vm_compute. reflexivity. Qed.

Lemma deleted_is_gone_witness :
  SubdomainsId.handleGet owner1 "0" world2
    = (Js.Normal (failed 404 "Subdomain not found"), logged world2 [StoreGet "0"])
  /\ @SubdomainsId.handlePatch validator_js env_example owner1 "0" (Js.Str "10.0.0.9")
       3000 reply_ok world2
    = (Js.Normal (failed 404 "Subdomain not found"), logged world2 [StoreGet "0"])
  /\ @SubdomainsId.handleDelete env_example owner1 "0" reply_ok world2
    = (Js.Normal (failed 404 "Subdomain not found"), logged world2 [StoreGet "0"]).
Proof.
  exact (@deleted_is_gone validator_js env_example owner1 "0" reply_ok world1 world2
           owner1 (Js.Str "10.0.0.9") 3000 reply_ok delete_alice).
Defined.



Lemma check_agrees_with_create_witness :
  let checked := SubdomainsCheck.handler "GET" (Js.Str " Alice ") world1 in
  exists available,
    checked.1 = Js.Normal (mkResponse 200
                             (AvailabilityJson available
                                (if available then None
                                 else Some "This subdomain is already taken")))
    /\ (@SubdomainsIndex.handlePost validator_js env_example
          (post owner2 " Alice " "A" "10.0.0.9") 2000 reply_ok checked.2).1
       = if available
         then Js.Normal (created (Firestore.autoId (subdomains world1))
                           (createdDoc owner2 "alice" "10.0.0.9" "A" reply_ok 2000))
         else Js.Normal (failed 409 "This subdomain is already taken").
Proof.
  apply (@check_agrees_with_create validator_js env_example
           (post owner2 " Alice " "A" "10.0.0.9") 2000 reply_ok world1 "alice" "A" "10.0.0.9").
  - split; [reflexivity |]. split; [reflexivity |]. left. split; reflexivity.
  - vm_compute. reflexivity.
Defined.

Lemma update_effects_witness :
  exists d,
    subdomains world1 !! "0" = Some d
    /\ trace (@SubdomainsId.handlePatch validator_js env_example owner1 "0"
                (Js.Str "10.0.0.5") 4000 reply_down world1).2
       = (trace world1 ++ [StoreGet "0";
                           DnsPatch (@upsertRequest env_example (Firestore.recordType d)
                                       (Firestore.subdomainName d)
                                       (Firestore.targetUrl
                                          (patchedDoc alice_record "10.0.0.5" reply_down 4000)));
                           StoreUpdate "0"; StoreGet "0"])%list
    /\ subdomains (@SubdomainsId.handlePatch validator_js env_example owner1 "0"
                     (Js.Str "10.0.0.5") 4000 reply_down world1).2
       = <["0" := patchedDoc alice_record "10.0.0.5" reply_down 4000]> (subdomains world1)
    /\ rateLimit (@SubdomainsId.handlePatch validator_js env_example owner1 "0"
                    (Js.Str "10.0.0.5") 4000 reply_down world1).2
       = rateLimit world1.
Proof.
  apply (@update_effects validator_js env_example owner1 "0" (Js.Str "10.0.0.5") 4000
           reply_down world1).
  vm_compute. reflexivity.
Defined.
